(** * google-analytics-mcp: request shaping of the GA4 tool handlers

    A shallow embedding of [src/google-analytics-mcp/src/index.js]: the
    resolution of the GA4 property, the declared input schemas, the seven
    registered tool handlers and the text envelope they return.

    JavaScript values are modelled as follows.
    - [undefined] is [None] of an [option]; a property that is absent from an
      object and a property holding [undefined] are both [None].
    - Strings are [string] (byte strings, read as UTF-8).
    - A number whose value is an integer is [JNum n] with [n : Z]; a number
      that is not an integer is [JFrac text], named by the decimal text
      [Number.prototype.toString] gives for it (["0.5"], ["1e-7"]).  The
      integers a double holds exactly and prints in plain decimal are the
      safe integers, of magnitude at most [MAX_SAFE_INTEGER]; where printing
      matters the numbers are required to be safe.  NaN and the infinities
      are no JSON data and are not represented.
    - A plain object is an association list in own-property order; a
      well-formed object binds each key once and lookup takes the first
      binding.
    - An [async] handler is a tree of backend calls ([Async]), run against a
      backend that settles each call. *)

From Stdlib Require Import String Ascii List ZArith Bool Lia DecimalString.
Import ListNotations.
Local Open Scope string_scope.

Set Warnings "-register-all".

(** ** JSON data *)

Inductive json : Type :=
| JNull
| JBool (b : bool)
| JNum (n : Z)
| JStr (s : string)
| JArr (items : list json)
| JObj (fields : list (string * json))
| JFrac (text : string).

(** [obj.key]: [None] is [undefined]. *)
Fixpoint getField (key : string) (fields : list (string * json)) : option json :=
  match fields with
  | [] => None
  | (k, v) :: rest => if String.eqb k key then Some v else getField key rest
  end.

(** ** [JSON.stringify(value, null, 2)] *)

Definition dquote : ascii := "034"%char.
Definition newline : string := String "010"%char EmptyString.
Definition gap : string := "  ".

Definition hexDigit (n : N) : ascii :=
  if (n <? 10)%N then ascii_of_N (48 + n) else ascii_of_N (87 + n).

(** One code unit of QuoteJSONString. *)
Definition quoteChar (c : ascii) : string :=
  let n := N_of_ascii c in
  if (n =? 34)%N then String "\"%char (String dquote EmptyString)
  else if (n =? 92)%N then "\\"
  else if (n =? 8)%N then "\b"
  else if (n =? 12)%N then "\f"
  else if (n =? 10)%N then "\n"
  else if (n =? 13)%N then "\r"
  else if (n =? 9)%N then "\t"
  else if (n <? 32)%N then
    "\u00" ++ String (hexDigit (n / 16)) (String (hexDigit (n mod 16)) EmptyString)
  else String c EmptyString.

Fixpoint quoteBody (s : string) : string :=
  match s with
  | EmptyString => EmptyString
  | String c rest => quoteChar c ++ quoteBody rest
  end.

Definition quoteJSONString (s : string) : string :=
  String dquote (quoteBody s ++ String dquote EmptyString).

(** [Number.MAX_SAFE_INTEGER], 2^53 - 1. *)
Definition MAX_SAFE_INTEGER : Z := 9007199254740991.

(** [Number.isSafeInteger] on an integer. *)
Definition isSafeInteger (n : Z) : bool :=
  ((- MAX_SAFE_INTEGER <=? n) && (n <=? MAX_SAFE_INTEGER))%Z.

(** [Number.prototype.toString] on a safe integer: its decimal digits.  (An
    integer of magnitude 10^21 or more is printed with an exponent instead;
    such numbers are outside the safe range.) *)
Definition numberToString (n : Z) : string :=
  NilZero.string_of_int (Z.to_int n).

Fixpoint join (sep : string) (parts : list string) : string :=
  match parts with
  | [] => EmptyString
  | [p] => p
  | p :: rest => p ++ sep ++ join sep rest
  end.

(** SerializeJSONProperty with the two-space gap; [indent] is the current
    indentation. *)
Fixpoint serialize (indent : string) (v : json) : string :=
  let stepback := indent in
  let indent := indent ++ gap in
  let separator := "," ++ newline ++ indent in
  match v with
  | JNull => "null"
  | JBool true => "true"
  | JBool false => "false"
  | JNum n => numberToString n
  | JFrac text => text
  | JStr s => quoteJSONString s
  | JArr [] => "[]"
  | JArr items =>
      "[" ++ newline ++ indent
          ++ join separator (map (serialize indent) items)
          ++ newline ++ stepback ++ "]"
  | JObj [] => "{}"
  | JObj fields =>
      "{" ++ newline ++ indent
          ++ join separator
               (map (fun kv => quoteJSONString (fst kv) ++ ": " ++ serialize indent (snd kv))
                    fields)
          ++ newline ++ stepback ++ "}"
  end.

(** [JSON.stringify(obj, null, 2)]; [undefined] serializes to [undefined]. *)
Definition JSON_stringify (obj : option json) : option string :=
  match obj with
  | None => None
  | Some v => Some (serialize EmptyString v)
  end.

(** Every integer of a value is a safe integer. *)
Fixpoint safeIntegers (v : json) : bool :=
  match v with
  | JNum n => isSafeInteger n
  | JArr items => forallb safeIntegers items
  | JObj fields => forallb (fun kv => safeIntegers (snd kv)) fields
  | _ => true
  end.

(** ** Shapes of the objects the handlers read and build *)

(** [{ startDate, endDate }] *)
Module DateRange.
Record t := { startDate : string; endDate : string }.
End DateRange.

(** [{ name }] *)
Module Named.
Record t := { name : string }.
End Named.

(** Parsed arguments of [query_analytics] and [get_custom_report]. *)
Module ReportArgs.
Record t := {
  propertyId : option string;
  dateRanges : list DateRange.t;
  dimensions : option (list string);
  metrics : list string;
  dimensionFilter : option json;
  metricFilter : option json;
  limit : option Z;
  offset : option Z;
  orderBys : option json
}.
End ReportArgs.

(** Parsed arguments of [get_realtime_data]. *)
Module RealtimeArgs.
Record t := {
  propertyId : option string;
  dimensions : option (list string);
  metrics : option (list string)
}.
End RealtimeArgs.

(** Parsed arguments of the four fixed-preset tools. *)
Module PresetArgs.
Record t := {
  propertyId : option string;
  startDate : option string;
  endDate : option string
}.
End PresetArgs.

(** The argument of [buildProperty]: any object, read only at [propertyId]. *)
Module Overrides.
Record t := { propertyId : option string }.
End Overrides.

(** Request object handed to [analyticsDataClient.runReport]. *)
Module RunReportRequest.
Record t := {
  property : option string;
  dateRanges : list DateRange.t;
  dimensions : list Named.t;
  metrics : list Named.t;
  dimensionFilter : option json;
  metricFilter : option json;
  limit : option Z;
  offset : option Z;
  orderBys : option json
}.
End RunReportRequest.

(** Request object handed to [analyticsDataClient.runRealtimeReport]. *)
Module RunRealtimeReportRequest.
Record t := {
  property : option string;
  dimensions : list Named.t;
  metrics : list Named.t
}.
End RunRealtimeReportRequest.

(** One block of a tool result and the result envelope. *)
Module ContentBlock.
Record t := { type : string; text : option string }.
End ContentBlock.

Module ToolOutput.
Record t := { content : list ContentBlock.t }.
End ToolOutput.

(** ** Asynchronous handlers

    The only suspension point of a handler is a call of the analytics
    client.  A call settles with the response tuple
    [[result, rawApiResponse, ...]] or rejects; a rejection is not caught by
    any handler and ends the invocation. *)

Inductive BackendCall : Type :=
| RunReport (request : RunReportRequest.t)
| RunRealtimeReport (request : RunRealtimeReportRequest.t).

Definition ResponseTuple : Type := list (option json).

Inductive Async (A : Type) : Type :=
| Resolve (a : A)
| Await (call : BackendCall) (k : ResponseTuple -> Async A).

Arguments Resolve {A} a.
Arguments Await {A} call k.

Fixpoint bind {A B : Type} (m : Async A) (f : A -> Async B) : Async B :=
  match m with
  | Resolve a => f a
  | Await call k => Await call (fun tuple => bind (k tuple) f)
  end.

Notation "x <- m ;; k" := (bind m (fun x => k))
  (at level 61, m at next level, right associativity).

Module analyticsDataClient.
Definition runReport (request : RunReportRequest.t) : Async ResponseTuple :=
  Await (RunReport request) Resolve.
Definition runRealtimeReport (request : RunRealtimeReportRequest.t) : Async ResponseTuple :=
  Await (RunRealtimeReport request) Resolve.
End analyticsDataClient.

Inductive Settled (A : Type) : Type :=
| Fulfilled (a : A)
| Rejected (reason : string).

Arguments Fulfilled {A} a.
Arguments Rejected {A} reason.

Definition Backend : Type := BackendCall -> Settled ResponseTuple.

(** Runs a handler against a backend: the calls made, in order, and how the
    invocation settles. *)
Fixpoint run {A : Type} (backend : Backend) (p : Async A)
  : list BackendCall * Settled A :=
  match p with
  | Resolve a => ([], Fulfilled a)
  | Await call k =>
      match backend call with
      | Rejected reason => ([call], Rejected reason)
      | Fulfilled tuple =>
          let (calls, outcome) := run backend (k tuple) in
          (call :: calls, outcome)
      end
  end.

(** [const [response] = tuple] *)
Definition first (tuple : ResponseTuple) : option json :=
  match tuple with
  | [] => None
  | response :: _ => response
  end.

(** ** JavaScript operators the handlers use *)

(** Truthiness of a value that is a string or [undefined]. *)
Definition truthy (v : option string) : bool :=
  match v with
  | Some s => negb (String.eqb s EmptyString)
  | None => false
  end.

(** [a || b] on strings-or-undefined. *)
Definition or_ (a b : option string) : option string :=
  if truthy a then a else b.

(** [a || b] where [a] is an array or [undefined]: every array is truthy. *)
Definition orArray {A : Type} (a : option (list A)) (b : list A) : list A :=
  match a with
  | Some items => items
  | None => b
  end.

(** A destructuring default [{ x = d }]: applies to [undefined] only. *)
Definition orDefault {A : Type} (x : option A) (d : A) : A :=
  match x with
  | Some v => v
  | None => d
  end.

(** [(name) => ({ name })] *)
Definition wrapName (name : string) : Named.t := {| Named.name := name |}.

(** ** Input schemas (zod)

    A schema parses a value that may be [undefined] and either yields the
    parsed value or an issue.  zod reports every issue of an input; only the
    first is kept here, which does not change whether an input is valid. *)

Inductive ZodIssue : Type :=
| invalid_type
| too_small
| too_big.

Inductive Parsed (A : Type) : Type :=
| Valid (a : A)
| Invalid (issue : ZodIssue).

Arguments Valid {A} a.
Arguments Invalid {A} issue.

Definition Schema (A : Type) : Type := option json -> Parsed A.

Definition andThen {A B : Type} (m : Parsed A) (f : A -> Parsed B) : Parsed B :=
  match m with
  | Valid a => f a
  | Invalid issue => Invalid issue
  end.

Notation "x <~ m ;; k" := (andThen m (fun x => k))
  (at level 61, m at next level, right associativity).

Fixpoint parseAll {A : Type} (inner : Schema A) (items : list json) : Parsed (list A) :=
  match items with
  | [] => Valid []
  | item :: rest =>
      a <~ inner (Some item) ;;
      others <~ parseAll inner rest ;;
      Valid (a :: others)
  end.

Module z.
(** [z.string()] *)
Definition string : Schema String.string :=
  fun input =>
    match input with
    | Some (JStr s) => Valid s
    | _ => Invalid invalid_type
    end.

(** [z.any().optional()] *)
Definition any_optional : Schema (option json) :=
  fun input => Valid input.

(** [.int()] on a number whose value is the integer [n].  zod 3 asks for
    [Number.isInteger] only; zod 4 also asks for a safe integer.  [safe]
    tells whether zod 4 is installed. *)
Definition int (safe : bool) (n : Z) : Parsed Z :=
  if safe then
    if (n <? - MAX_SAFE_INTEGER)%Z then Invalid too_small
    else if (MAX_SAFE_INTEGER <? n)%Z then Invalid too_big
    else Valid n
  else Valid n.

(** [z.number().int().positive()]: a number, an integer, above zero. *)
Definition number_int_positive (safe : bool) : Schema Z :=
  fun input =>
    match input with
    | Some (JNum n) =>
        m <~ int safe n ;;
        if (0 <? m)%Z then Valid m else Invalid too_small
    | Some (JFrac _) => Invalid invalid_type
    | _ => Invalid invalid_type
    end.

(** [z.number().int().nonnegative()]: a number, an integer, zero or more. *)
Definition number_int_nonnegative (safe : bool) : Schema Z :=
  fun input =>
    match input with
    | Some (JNum n) =>
        m <~ int safe n ;;
        if (0 <=? m)%Z then Valid m else Invalid too_small
    | Some (JFrac _) => Invalid invalid_type
    | _ => Invalid invalid_type
    end.

(** [z.array(inner)] *)
Definition array {A : Type} (inner : Schema A) : Schema (list A) :=
  fun input =>
    match input with
    | Some (JArr items) => parseAll inner items
    | _ => Invalid invalid_type
    end.

(** [schema.nonempty()] on an array schema *)
Definition nonempty {A : Type} (schema : Schema (list A)) : Schema (list A) :=
  fun input =>
    items <~ schema input ;;
    match items with
    | [] => Invalid too_small
    | _ :: _ => Valid items
    end.

(** [schema.optional()] *)
Definition optional {A : Type} (schema : Schema A) : Schema (option A) :=
  fun input =>
    match input with
    | None => Valid None
    | Some _ => a <~ schema input ;; Valid (Some a)
    end.

(** [schema.default(d).optional()].  On [undefined] zod 3 answers
    [undefined] (the optional wrapper returns first) and zod 4 answers the
    default [d]; [applied] tells which of the two is installed. *)
Definition default_optional {A : Type} (applied : bool) (schema : Schema A) (d : A)
  : Schema (option A) :=
  fun input =>
    match input with
    | None => Valid (if applied then Some d else None)
    | Some _ => a <~ schema input ;; Valid (Some a)
    end.

(** [z.object(shape)]: the input must be a plain object; keys outside the
    shape are dropped. *)
Definition object {A : Type} (shape : list (String.string * json) -> Parsed A) : Schema A :=
  fun input =>
    match input with
    | Some (JObj fields) => shape fields
    | _ => Invalid invalid_type
    end.
End z.

(** [z.object({ startDate: z.string(), endDate: z.string() })] *)
Definition dateRangeSchema : Schema DateRange.t :=
  z.object (fun fields =>
    startDate <~ z.string (getField "startDate" fields) ;;
    endDate <~ z.string (getField "endDate" fields) ;;
    Valid {| DateRange.startDate := startDate; DateRange.endDate := endDate |}).

(** ** Registered tools *)

Module Tool.
Record t := {
  name : string;
  description : string;
  Args : Type;
  inputSchema : Schema Args;
  handler : Args -> Async ToolOutput.t
}.
End Tool.

(** What the server answers to a tool call. *)
Inductive CallToolOutcome : Type :=
| ToolResult (output : ToolOutput.t)
| InvalidParams (issue : ZodIssue)
| ToolNotFound.

(** [toToolTextContent] *)
Definition toToolTextContent (obj : option json) : ToolOutput.t :=
  {| ToolOutput.content :=
       [ {| ContentBlock.type := "text";
            ContentBlock.text := JSON_stringify obj |} ] |}.

(** [`${v}`] for a string or [undefined]. *)
Definition templateString (v : option string) : string :=
  match v with
  | Some s => s
  | None => "undefined"
  end.

Section Server.

(** [process.env] once [dotenv.config()] has run. *)
Variable env : string -> option string.

(** Whether zod 4 is installed rather than zod 3.  The two differ in what
    the schemas of this file do in two places: zod 4 applies a default
    below [.optional()] where zod 3 answers [undefined], and the [.int()]
    of zod 4 asks for a safe integer. *)
Variable defaultApplied : bool.

(** [const propertyId = process.env.GA4_PROPERTY_ID || process.env.GA_PROPERTY_ID] *)
Definition propertyId : option string :=
  or_ (env "GA4_PROPERTY_ID") (env "GA_PROPERTY_ID").

(** [const id = overrides?.propertyId || propertyId], the first statement of
    [buildProperty]. *)
Definition resolveId (overrides : option Overrides.t) : option string :=
  or_ (match overrides with
       | Some o => Overrides.propertyId o
       | None => None
       end)
      propertyId.

Definition buildProperty (overrides : option Overrides.t) : option string :=
  let id := resolveId overrides in
  if negb (truthy id) then None
  else Some ("properties/" ++ templateString id).

(** *** Schemas *)

Definition query_analytics_schema : Schema ReportArgs.t :=
  z.object (fun fields =>
    propertyId <~ z.optional z.string (getField "propertyId" fields) ;;
    dateRanges <~ z.nonempty (z.array dateRangeSchema) (getField "dateRanges" fields) ;;
    dimensions <~ z.optional (z.array z.string) (getField "dimensions" fields) ;;
    metrics <~ z.nonempty (z.array z.string) (getField "metrics" fields) ;;
    dimensionFilter <~ z.any_optional (getField "dimensionFilter" fields) ;;
    metricFilter <~ z.any_optional (getField "metricFilter" fields) ;;
    limit <~ z.optional (z.number_int_positive defaultApplied) (getField "limit" fields) ;;
    offset <~ z.optional (z.number_int_nonnegative defaultApplied) (getField "offset" fields) ;;
    orderBys <~ z.any_optional (getField "orderBys" fields) ;;
    Valid {| ReportArgs.propertyId := propertyId;
             ReportArgs.dateRanges := dateRanges;
             ReportArgs.dimensions := dimensions;
             ReportArgs.metrics := metrics;
             ReportArgs.dimensionFilter := dimensionFilter;
             ReportArgs.metricFilter := metricFilter;
             ReportArgs.limit := limit;
             ReportArgs.offset := offset;
             ReportArgs.orderBys := orderBys |}).

Definition get_realtime_data_schema : Schema RealtimeArgs.t :=
  z.object (fun fields =>
    propertyId <~ z.optional z.string (getField "propertyId" fields) ;;
    dimensions <~ z.default_optional defaultApplied (z.array z.string) ["country"]
                    (getField "dimensions" fields) ;;
    metrics <~ z.default_optional defaultApplied (z.array z.string) ["activeUsers"]
                 (getField "metrics" fields) ;;
    Valid {| RealtimeArgs.propertyId := propertyId;
             RealtimeArgs.dimensions := dimensions;
             RealtimeArgs.metrics := metrics |}).

Definition get_traffic_sources_schema : Schema PresetArgs.t :=
  z.object (fun fields =>
    propertyId <~ z.optional z.string (getField "propertyId" fields) ;;
    startDate <~ z.default_optional defaultApplied z.string "7daysAgo"
                   (getField "startDate" fields) ;;
    endDate <~ z.default_optional defaultApplied z.string "today"
                 (getField "endDate" fields) ;;
    Valid {| PresetArgs.propertyId := propertyId;
             PresetArgs.startDate := startDate;
             PresetArgs.endDate := endDate |}).

Definition get_user_demographics_schema : Schema PresetArgs.t :=
  z.object (fun fields =>
    propertyId <~ z.optional z.string (getField "propertyId" fields) ;;
    startDate <~ z.default_optional defaultApplied z.string "7daysAgo"
                   (getField "startDate" fields) ;;
    endDate <~ z.default_optional defaultApplied z.string "today"
                 (getField "endDate" fields) ;;
    Valid {| PresetArgs.propertyId := propertyId;
             PresetArgs.startDate := startDate;
             PresetArgs.endDate := endDate |}).

Definition get_page_performance_schema : Schema PresetArgs.t :=
  z.object (fun fields =>
    propertyId <~ z.optional z.string (getField "propertyId" fields) ;;
    startDate <~ z.default_optional defaultApplied z.string "7daysAgo"
                   (getField "startDate" fields) ;;
    endDate <~ z.default_optional defaultApplied z.string "today"
                 (getField "endDate" fields) ;;
    Valid {| PresetArgs.propertyId := propertyId;
             PresetArgs.startDate := startDate;
             PresetArgs.endDate := endDate |}).

Definition get_conversion_data_schema : Schema PresetArgs.t :=
  z.object (fun fields =>
    propertyId <~ z.optional z.string (getField "propertyId" fields) ;;
    startDate <~ z.default_optional defaultApplied z.string "7daysAgo"
                   (getField "startDate" fields) ;;
    endDate <~ z.default_optional defaultApplied z.string "today"
                 (getField "endDate" fields) ;;
    Valid {| PresetArgs.propertyId := propertyId;
             PresetArgs.startDate := startDate;
             PresetArgs.endDate := endDate |}).

Definition get_custom_report_schema : Schema ReportArgs.t :=
  z.object (fun fields =>
    propertyId <~ z.optional z.string (getField "propertyId" fields) ;;
    dimensions <~ z.default_optional defaultApplied (z.array z.string) []
                    (getField "dimensions" fields) ;;
    metrics <~ z.nonempty (z.array z.string) (getField "metrics" fields) ;;
    dateRanges <~ z.nonempty (z.array dateRangeSchema) (getField "dateRanges" fields) ;;
    dimensionFilter <~ z.any_optional (getField "dimensionFilter" fields) ;;
    metricFilter <~ z.any_optional (getField "metricFilter" fields) ;;
    limit <~ z.optional (z.number_int_positive defaultApplied) (getField "limit" fields) ;;
    offset <~ z.optional (z.number_int_nonnegative defaultApplied) (getField "offset" fields) ;;
    orderBys <~ z.any_optional (getField "orderBys" fields) ;;
    Valid {| ReportArgs.propertyId := propertyId;
             ReportArgs.dateRanges := dateRanges;
             ReportArgs.dimensions := dimensions;
             ReportArgs.metrics := metrics;
             ReportArgs.dimensionFilter := dimensionFilter;
             ReportArgs.metricFilter := metricFilter;
             ReportArgs.limit := limit;
             ReportArgs.offset := offset;
             ReportArgs.orderBys := orderBys |}).

(** *** Handlers *)

Definition query_analytics_handler (args : ReportArgs.t) : Async ToolOutput.t :=
  tuple <- analyticsDataClient.runReport
    {| RunReportRequest.property :=
         buildProperty (Some {| Overrides.propertyId := ReportArgs.propertyId args |});
       RunReportRequest.dateRanges := ReportArgs.dateRanges args;
       RunReportRequest.dimensions := map wrapName (orArray (ReportArgs.dimensions args) []);
       RunReportRequest.metrics := map wrapName (ReportArgs.metrics args);
       RunReportRequest.dimensionFilter := ReportArgs.dimensionFilter args;
       RunReportRequest.metricFilter := ReportArgs.metricFilter args;
       RunReportRequest.limit := ReportArgs.limit args;
       RunReportRequest.offset := ReportArgs.offset args;
       RunReportRequest.orderBys := ReportArgs.orderBys args |} ;;
  let response := first tuple in
  Resolve (toToolTextContent response).

Definition get_realtime_data_handler (args : RealtimeArgs.t) : Async ToolOutput.t :=
  tuple <- analyticsDataClient.runRealtimeReport
    {| RunRealtimeReportRequest.property :=
         buildProperty (Some {| Overrides.propertyId := RealtimeArgs.propertyId args |});
       RunRealtimeReportRequest.dimensions :=
         map wrapName (orArray (RealtimeArgs.dimensions args) ["country"]);
       RunRealtimeReportRequest.metrics :=
         map wrapName (orArray (RealtimeArgs.metrics args) ["activeUsers"]) |} ;;
  let response := first tuple in
  Resolve (toToolTextContent response).

Definition get_traffic_sources_handler (args : PresetArgs.t) : Async ToolOutput.t :=
  let overrideId := PresetArgs.propertyId args in
  let startDate := orDefault (PresetArgs.startDate args) "7daysAgo" in
  let endDate := orDefault (PresetArgs.endDate args) "today" in
  tuple <- analyticsDataClient.runReport
    {| RunReportRequest.property :=
         buildProperty (Some {| Overrides.propertyId := overrideId |});
       RunReportRequest.dateRanges :=
         [ {| DateRange.startDate := startDate; DateRange.endDate := endDate |} ];
       RunReportRequest.dimensions :=
         [ {| Named.name := "source" |}; {| Named.name := "medium" |} ];
       RunReportRequest.metrics :=
         [ {| Named.name := "sessions" |} ];
       RunReportRequest.dimensionFilter := None;
       RunReportRequest.metricFilter := None;
       RunReportRequest.limit := None;
       RunReportRequest.offset := None;
       RunReportRequest.orderBys := None |} ;;
  let response := first tuple in
  Resolve (toToolTextContent response).

Definition get_user_demographics_handler (args : PresetArgs.t) : Async ToolOutput.t :=
  let overrideId := PresetArgs.propertyId args in
  let startDate := orDefault (PresetArgs.startDate args) "7daysAgo" in
  let endDate := orDefault (PresetArgs.endDate args) "today" in
  tuple <- analyticsDataClient.runReport
    {| RunReportRequest.property :=
         buildProperty (Some {| Overrides.propertyId := overrideId |});
       RunReportRequest.dateRanges :=
         [ {| DateRange.startDate := startDate; DateRange.endDate := endDate |} ];
       RunReportRequest.dimensions :=
         [ {| Named.name := "country" |}; {| Named.name := "city" |} ];
       RunReportRequest.metrics :=
         [ {| Named.name := "activeUsers" |} ];
       RunReportRequest.dimensionFilter := None;
       RunReportRequest.metricFilter := None;
       RunReportRequest.limit := None;
       RunReportRequest.offset := None;
       RunReportRequest.orderBys := None |} ;;
  let response := first tuple in
  Resolve (toToolTextContent response).

Definition get_page_performance_handler (args : PresetArgs.t) : Async ToolOutput.t :=
  let overrideId := PresetArgs.propertyId args in
  let startDate := orDefault (PresetArgs.startDate args) "7daysAgo" in
  let endDate := orDefault (PresetArgs.endDate args) "today" in
  tuple <- analyticsDataClient.runReport
    {| RunReportRequest.property :=
         buildProperty (Some {| Overrides.propertyId := overrideId |});
       RunReportRequest.dateRanges :=
         [ {| DateRange.startDate := startDate; DateRange.endDate := endDate |} ];
       RunReportRequest.dimensions :=
         [ {| Named.name := "pagePath" |} ];
       RunReportRequest.metrics :=
         [ {| Named.name := "screenPageViews" |}; {| Named.name := "averageSessionDuration" |} ];
       RunReportRequest.dimensionFilter := None;
       RunReportRequest.metricFilter := None;
       RunReportRequest.limit := None;
       RunReportRequest.offset := None;
       RunReportRequest.orderBys := None |} ;;
  let response := first tuple in
  Resolve (toToolTextContent response).

Definition get_conversion_data_handler (args : PresetArgs.t) : Async ToolOutput.t :=
  let overrideId := PresetArgs.propertyId args in
  let startDate := orDefault (PresetArgs.startDate args) "7daysAgo" in
  let endDate := orDefault (PresetArgs.endDate args) "today" in
  tuple <- analyticsDataClient.runReport
    {| RunReportRequest.property :=
         buildProperty (Some {| Overrides.propertyId := overrideId |});
       RunReportRequest.dateRanges :=
         [ {| DateRange.startDate := startDate; DateRange.endDate := endDate |} ];
       RunReportRequest.dimensions :=
         [ {| Named.name := "eventName" |} ];
       RunReportRequest.metrics :=
         [ {| Named.name := "eventCount" |} ];
       RunReportRequest.dimensionFilter := None;
       RunReportRequest.metricFilter := None;
       RunReportRequest.limit := None;
       RunReportRequest.offset := None;
       RunReportRequest.orderBys := None |} ;;
  let response := first tuple in
  Resolve (toToolTextContent response).

Definition get_custom_report_handler (args : ReportArgs.t) : Async ToolOutput.t :=
  tuple <- analyticsDataClient.runReport
    {| RunReportRequest.property :=
         buildProperty (Some {| Overrides.propertyId := ReportArgs.propertyId args |});
       RunReportRequest.dateRanges := ReportArgs.dateRanges args;
       RunReportRequest.dimensions := map wrapName (orArray (ReportArgs.dimensions args) []);
       RunReportRequest.metrics := map wrapName (ReportArgs.metrics args);
       RunReportRequest.dimensionFilter := ReportArgs.dimensionFilter args;
       RunReportRequest.metricFilter := ReportArgs.metricFilter args;
       RunReportRequest.limit := ReportArgs.limit args;
       RunReportRequest.offset := ReportArgs.offset args;
       RunReportRequest.orderBys := ReportArgs.orderBys args |} ;;
  let response := first tuple in
  Resolve (toToolTextContent response).

(** *** Registration and dispatch *)

Definition query_analytics : Tool.t :=
  {| Tool.name := "query_analytics";
     Tool.description :=
       "Run an arbitrary GA4 runReport request. Provide dimensions, metrics, dateRanges, filters, etc.";
     Tool.inputSchema := query_analytics_schema;
     Tool.handler := query_analytics_handler |}.

Definition get_realtime_data : Tool.t :=
  {| Tool.name := "get_realtime_data";
     Tool.description := "Retrieve GA4 realtime metrics (activeUsers by country by default).";
     Tool.inputSchema := get_realtime_data_schema;
     Tool.handler := get_realtime_data_handler |}.

Definition get_traffic_sources : Tool.t :=
  {| Tool.name := "get_traffic_sources";
     Tool.description := "Traffic sources over a date range (source/medium, sessions).";
     Tool.inputSchema := get_traffic_sources_schema;
     Tool.handler := get_traffic_sources_handler |}.

Definition get_user_demographics : Tool.t :=
  {| Tool.name := "get_user_demographics";
     Tool.description := "User demographics by country and city over a date range.";
     Tool.inputSchema := get_user_demographics_schema;
     Tool.handler := get_user_demographics_handler |}.

Definition get_page_performance : Tool.t :=
  {| Tool.name := "get_page_performance";
     Tool.description :=
       "Page performance metrics like views and avg session duration by pagePath.";
     Tool.inputSchema := get_page_performance_schema;
     Tool.handler := get_page_performance_handler |}.

Definition get_conversion_data : Tool.t :=
  {| Tool.name := "get_conversion_data";
     Tool.description := "Conversion-related metrics by eventName over a date range.";
     Tool.inputSchema := get_conversion_data_schema;
     Tool.handler := get_conversion_data_handler |}.

Definition get_custom_report : Tool.t :=
  {| Tool.name := "get_custom_report";
     Tool.description :=
       "Generate a custom GA4 report with chosen dimensions, metrics, and dateRanges.";
     Tool.inputSchema := get_custom_report_schema;
     Tool.handler := get_custom_report_handler |}.

(** The tools in registration order. *)
Definition registeredTools : list Tool.t :=
  [ query_analytics; get_realtime_data; get_traffic_sources; get_user_demographics;
    get_page_performance; get_conversion_data; get_custom_report ].

Definition findTool (name : string) : option Tool.t :=
  find (fun tool => String.eqb (Tool.name tool) name) registeredTools.

(** Modelled from the spec: the dispatch of a tool call, which belongs to the
    MCP server library ([McpServer.registerTool]) and not to [index.js].
    Section 7 of the specification: caller input that fails the declared
    schema is rejected before the handler runs and surfaced as an
    input-validation failure.  The arguments are parsed with the tool's
    input schema and the handler runs on the parsed arguments only. *)
Definition callTool (name : string) (arguments : json) : Async CallToolOutcome :=
  match findTool name with
  | None => Resolve ToolNotFound
  | Some tool =>
      match Tool.inputSchema tool (Some arguments) with
      | Invalid issue => Resolve (InvalidParams issue)
      | Valid args =>
          output <- Tool.handler tool args ;;
          Resolve (ToolResult output)
      end
  end.

End Server.

(** ** Observations on an invocation *)

(** [arguments.key] of the raw arguments of a call. *)
Definition argument (key : string) (arguments : json) : option json :=
  match arguments with
  | JObj fields => getField key fields
  | _ => None
  end.

(** The [propertyId] override carried by the raw arguments, if any. *)
Definition overrideOf (arguments : json) : option string :=
  match argument "propertyId" arguments with
  | Some (JStr s) => Some s
  | _ => None
  end.

Definition propertyOf (call : BackendCall) : option string :=
  match call with
  | RunReport request => RunReportRequest.property request
  | RunRealtimeReport request => RunRealtimeReportRequest.property request
  end.

Definition dimensionsOf (call : BackendCall) : list Named.t :=
  match call with
  | RunReport request => RunReportRequest.dimensions request
  | RunRealtimeReport request => RunRealtimeReportRequest.dimensions request
  end.

Definition metricsOf (call : BackendCall) : list Named.t :=
  match call with
  | RunReport request => RunReportRequest.metrics request
  | RunRealtimeReport request => RunRealtimeReportRequest.metrics request
  end.

(** Whether the server runs the handler of [name] on [arguments]. *)
Definition accepts (env : string -> option string) (defaultApplied : bool)
  (name : string) (arguments : json) : bool :=
  match findTool env defaultApplied name with
  | None => false
  | Some tool =>
      match Tool.inputSchema tool (Some arguments) with
      | Valid _ => true
      | Invalid _ => false
      end
  end.

(** The backend calls of one tool call, in order. *)
Definition callsOf (env : string -> option string) (defaultApplied : bool)
  (backend : Backend) (name : string) (arguments : json) : list BackendCall :=
  fst (run backend (callTool env defaultApplied name arguments)).

(** The answer of one tool call. *)
Definition outcomeOf (env : string -> option string) (defaultApplied : bool)
  (backend : Backend) (name : string) (arguments : json) : Settled CallToolOutcome :=
  snd (run backend (callTool env defaultApplied name arguments)).

(** The preset table of the specification (section 4.1), row by row: tool,
    dimensions, metrics.  It is compared with the literal lists of the four
    fixed-preset handlers. *)
Definition specPresetTable : list (string * (list string * list string)) :=
  [ ("get_traffic_sources", (["source"; "medium"], ["sessions"]));
    ("get_user_demographics", (["country"; "city"], ["activeUsers"]));
    ("get_page_performance", (["pagePath"], ["screenPageViews"; "averageSessionDuration"]));
    ("get_conversion_data", (["eventName"], ["eventCount"])) ].

(** [f] applied to the value a settled call was fulfilled with. *)
Definition mapSettled {A B : Type} (f : A -> B) (s : Settled A) : Settled B :=
  match s with
  | Fulfilled a => Fulfilled (f a)
  | Rejected reason => Rejected reason
  end.

(** ** Sample configurations and inputs *)

(** No property configured in the environment. *)
Definition envUnset : string -> option string := fun _ => None.

(** [GA4_PROPERTY_ID=123456] *)
Definition envConfigured : string -> option string :=
  fun key => if String.eqb key "GA4_PROPERTY_ID" then Some "123456" else None.

(** A backend that answers every call with [[{ rows: [] }, undefined, undefined]]. *)
Definition sampleResult : json := JObj [("rows", JArr [])].
Definition sampleBackend : Backend :=
  fun _ => Fulfilled [Some sampleResult; None; None].

Definition sampleDateRanges : json :=
  JArr [JObj [("startDate", JStr "2024-01-01"); ("endDate", JStr "2024-01-31")]].

(** [query_analytics] arguments with an override. *)
Definition sampleQuery : json :=
  JObj [ ("propertyId", JStr "987");
         ("dateRanges", sampleDateRanges);
         ("dimensions", JArr [JStr "country"; JStr "city"]);
         ("metrics", JArr [JStr "sessions"; JStr "activeUsers"]) ].

(** [get_custom_report] arguments without an override. *)
Definition sampleReport : json :=
  JObj [ ("metrics", JArr [JStr "sessions"]);
         ("dateRanges", sampleDateRanges) ].

(** Arguments whose override is the empty string. *)
Definition emptyOverride : json := JObj [ ("propertyId", JStr "") ].

(** [get_realtime_data] arguments with an empty metrics list. *)
Definition emptyMetrics : json := JObj [ ("metrics", JArr []) ].

(** The request [get_custom_report] builds from [sampleReport] when no
    property is configured. *)
Definition sampleReportCall : BackendCall :=
  RunReport
    {| RunReportRequest.property := None;
       RunReportRequest.dateRanges :=
         [ {| DateRange.startDate := "2024-01-01"; DateRange.endDate := "2024-01-31" |} ];
       RunReportRequest.dimensions := [];
       RunReportRequest.metrics := [ {| Named.name := "sessions" |} ];
       RunReportRequest.dimensionFilter := None;
       RunReportRequest.metricFilter := None;
       RunReportRequest.limit := None;
       RunReportRequest.offset := None;
       RunReportRequest.orderBys := None |}.

(** [GA4_PROPERTY_ID] empty and [GA_PROPERTY_ID=654321]. *)
Definition envFallback : string -> option string :=
  fun key =>
    if String.eqb key "GA4_PROPERTY_ID" then Some ""
    else if String.eqb key "GA_PROPERTY_ID" then Some "654321"
    else None.

(** A backend that rejects every call. *)
Definition failingBackend : Backend := fun _ => Rejected "PERMISSION_DENIED".

(** A backend that fulfils every call with the empty tuple. *)
Definition emptyBackend : Backend := fun _ => Fulfilled [].

(** A value that is absent or a string. *)
Definition isOptionalString (v : option json) : bool :=
  match v with
  | None => true
  | Some (JStr _) => true
  | Some _ => false
  end.

(** The keys the input schemas declare, over all tools. *)
Definition declaredKeys : list string :=
  [ "propertyId"; "dateRanges"; "dimensions"; "metrics"; "dimensionFilter";
    "metricFilter"; "limit"; "offset"; "orderBys"; "startDate"; "endDate" ].

(** Whether a parse succeeded. *)
Definition isValid {A : Type} (p : Parsed A) : bool :=
  match p with
  | Valid _ => true
  | Invalid _ => false
  end.

Definition isString (v : json) : bool :=
  match v with
  | JStr _ => true
  | _ => false
  end.

(** An array of strings. *)
Definition isNames (v : json) : bool :=
  match v with
  | JArr items => forallb isString items
  | _ => false
  end.

(** An object whose [startDate] and [endDate] are strings. *)
Definition isDateRange (v : json) : bool :=
  match v with
  | JObj fields =>
      match getField "startDate" fields, getField "endDate" fields with
      | Some (JStr _), Some (JStr _) => true
      | _, _ => false
      end
  | _ => false
  end.

(** What [.int()] lets through: every integer under zod 3, the safe
    integers under zod 4 ([safe]). *)
Definition isInt (safe : bool) (n : Z) : bool :=
  if safe then isSafeInteger n else true.

(** The arguments [query_analytics] and [get_custom_report] are declared to
    take: an object with an optional string [propertyId], a non-empty array
    [dateRanges] of date ranges, an optional array [dimensions] of strings, a
    non-empty array [metrics] of strings, an optional [limit] that is a
    positive integer and an optional [offset] that is a non-negative
    integer. *)
Definition validReportArguments (safe : bool) (arguments : json) : bool :=
  match arguments with
  | JObj fields =>
      isOptionalString (getField "propertyId" fields)
      && match getField "dateRanges" fields with
         | Some (JArr (range :: ranges)) => forallb isDateRange (range :: ranges)
         | _ => false
         end
      && match getField "dimensions" fields with
         | None => true
         | Some v => isNames v
         end
      && match getField "metrics" fields with
         | Some (JArr (metric :: metrics)) => forallb isString (metric :: metrics)
         | _ => false
         end
      && match getField "limit" fields with
         | None => true
         | Some (JNum n) => isInt safe n && (0 <? n)%Z
         | Some _ => false
         end
      && match getField "offset" fields with
         | None => true
         | Some (JNum n) => isInt safe n && (0 <=? n)%Z
         | Some _ => false
         end
  | _ => false
  end.

(** The arguments [get_realtime_data] is declared to take: an object whose
    [propertyId] is an optional string and whose [dimensions] and [metrics]
    are optional arrays of strings. *)
Definition validRealtimeArguments (arguments : json) : bool :=
  match arguments with
  | JObj fields =>
      isOptionalString (getField "propertyId" fields)
      && match getField "dimensions" fields with
         | None => true
         | Some v => isNames v
         end
      && match getField "metrics" fields with
         | None => true
         | Some v => isNames v
         end
  | _ => false
  end.

(** [query_analytics] arguments with a filter, paging and an ordering. *)
Definition sampleFiltered : json :=
  JObj [ ("dateRanges", sampleDateRanges);
         ("metrics", JArr [JStr "sessions"]);
         ("dimensionFilter",
          JObj [("filter", JObj [("fieldName", JStr "country")])]);
         ("limit", JNum 25);
         ("offset", JNum 0);
         ("orderBys", JArr [JObj [("desc", JBool true)]]) ].

(** [query_analytics] arguments whose [limit] is 2^53, an integer that is
    not safe. *)
Definition sampleUnsafeLimit : json :=
  JObj [ ("dateRanges", sampleDateRanges);
         ("metrics", JArr [JStr "sessions"]);
         ("limit", JNum 9007199254740992) ].

(** [query_analytics] arguments whose [limit] is 2.5. *)
Definition sampleFractionalLimit : json :=
  JObj [ ("dateRanges", sampleDateRanges);
         ("metrics", JArr [JStr "sessions"]);
         ("limit", JFrac "2.5") ].

(** The request [query_analytics] builds from [sampleFiltered] when
    [GA4_PROPERTY_ID=123456]. *)
Definition sampleFilteredRequest : RunReportRequest.t :=
  {| RunReportRequest.property := Some "properties/123456";
     RunReportRequest.dateRanges :=
       [ {| DateRange.startDate := "2024-01-01"; DateRange.endDate := "2024-01-31" |} ];
     RunReportRequest.dimensions := [];
     RunReportRequest.metrics := [ {| Named.name := "sessions" |} ];
     RunReportRequest.dimensionFilter :=
       Some (JObj [("filter", JObj [("fieldName", JStr "country")])]);
     RunReportRequest.metricFilter := None;
     RunReportRequest.limit := Some 25%Z;
     RunReportRequest.offset := Some 0%Z;
     RunReportRequest.orderBys := Some (JArr [JObj [("desc", JBool true)]]) |}.

(** A report as the backend returns it. *)
Definition sampleRows : json :=
  JObj [ ("rows",
          JArr [ JObj [ ("dimensionValues", JArr [ JObj [ ("value", JStr "France") ] ]);
                        ("metricValues", JArr [ JObj [ ("value", JStr "42") ] ]) ] ]);
         ("rowCount", JNum 1);
         ("metadata", JObj []);
         ("kind", JStr "analyticsData#runReport") ].

(** A backend that answers every call with
    [[sampleRows, undefined, { status: 200 }]]. *)
Definition reportBackend : Backend :=
  fun _ => Fulfilled [Some sampleRows; None; Some (JObj [("status", JNum 200)])].

(** Preset arguments with a start date only. *)
Definition sampleWindow : json := JObj [ ("startDate", JStr "30daysAgo") ].

(** Preset arguments carrying keys no preset schema declares. *)
Definition sampleExtraKeys : json :=
  JObj [ ("dimensions", JArr [JStr "browser"]); ("limit", JNum 5) ].

(** Parsed preset arguments with every field absent. *)
Definition samplePresetArgs : PresetArgs.t :=
  {| PresetArgs.propertyId := None;
     PresetArgs.startDate := None;
     PresetArgs.endDate := None |}.

(** * Properties *)

(** ** Parsing *)

Lemma andThen_Valid {A B : Type} (m : Parsed A) (f : A -> Parsed B) (b : B) :
  andThen m f = Valid b -> exists a, m = Valid a /\ f a = Valid b.
Proof.
  destruct m as [a|issue]; simpl; intros H; [eauto | discriminate].
Qed.

Lemma andThen_Invalid {A B : Type} (m : Parsed A) (f : A -> Parsed B) :
  (forall a, exists issue, f a = Invalid issue) ->
  exists issue, andThen m f = Invalid issue.
Proof.
  intros Hf. destruct m as [a|issue]; simpl; eauto.
Qed.

Lemma optional_string_Valid (input : option json) (p : option string) :
  z.optional z.string input = Valid p ->
  p = match input with Some (JStr s) => Some s | _ => None end.
Proof.
  destruct input as [[| | |s| | |]|]; simpl; intros H; inversion H; reflexivity.
Qed.

Lemma parseAll_strings (names : list string) :
  parseAll z.string (map JStr names) = Valid names.
Proof.
  induction names as [|n names IH]; simpl; [reflexivity|].
  rewrite IH. reflexivity.
Qed.

Lemma parseAll_nil_inv {A : Type} (inner : Schema A) (items : list json) :
  parseAll inner items = Valid [] -> items = [].
Proof.
  destruct items as [|item rest]; simpl; [reflexivity|].
  destruct (inner (Some item)); simpl; [|discriminate].
  destruct (parseAll inner rest); simpl; discriminate.
Qed.

Lemma nonempty_Valid {A : Type} (schema : Schema (list A)) input (items : list A) :
  z.nonempty schema input = Valid items -> items <> [].
Proof.
  unfold z.nonempty. intros H.
  apply andThen_Valid in H as (l & _ & H).
  destruct l; [discriminate|]. inversion H. discriminate.
Qed.

Lemma nonempty_array_empty {A : Type} (inner : Schema A) :
  z.nonempty (z.array inner) (Some (JArr [])) = Invalid too_small.
Proof. reflexivity. Qed.

Lemma default_optional_absent {A : Type} applied (schema : Schema A) (d : A) v :
  z.default_optional applied schema d None = Valid v -> v = None \/ v = Some d.
Proof.
  simpl. intros H. inversion H. destruct applied; auto.
Qed.

Lemma default_optional_strings applied d (names : list string) v :
  z.default_optional applied (z.array z.string) d (Some (JArr (map JStr names))) = Valid v ->
  v = Some names.
Proof.
  simpl. rewrite parseAll_strings. simpl. intros H. inversion H. reflexivity.
Qed.

Lemma default_optional_array_nonempty {A : Type} applied (inner : Schema A) d input v :
  d <> [] ->
  input <> Some (JArr []) ->
  z.default_optional applied (z.array inner) d input = Valid v ->
  orArray v d <> [].
Proof.
  intros Hd Hin. destruct input as [j|]; simpl.
  - destruct j; simpl; try discriminate.
    destruct (parseAll inner items) as [l|] eqn:E; simpl; [|discriminate].
    intros H. inversion H. subst v. simpl. intros ->.
    apply parseAll_nil_inv in E. subst items. congruence.
  - intros H. inversion H. destruct applied; simpl; exact Hd.
Qed.

(** ** Running a handler *)

Lemma run_single {A : Type} (backend : Backend) (call : BackendCall)
  (f : ResponseTuple -> A) :
  fst (run backend (tuple <- Await call Resolve ;; Resolve (f tuple))) = [call].
Proof.
  simpl. destruct (backend call); reflexivity.
Qed.

(** ** Proof automation *)

(** Splits a successful parse of an object schema into the parses of its
    fields. *)
Ltac schema_inv H :=
  unfold query_analytics_schema, get_realtime_data_schema, get_traffic_sources_schema,
    get_user_demographics_schema, get_page_performance_schema,
    get_conversion_data_schema, get_custom_report_schema, z.object in H;
  match type of H with
  | match ?arguments with _ => _ end = Valid _ =>
      destruct arguments; try discriminate H
  end;
  repeat (let a := fresh "v" in
          let Ha := fresh "Hv" in
          apply andThen_Valid in H as (a & Ha & H));
  inversion H; subst; clear H.

(** Case analysis on the registered tool. *)
Ltac each_tool H :=
  unfold registeredTools in H;
  repeat (destruct H as [H|H]; [subst|]); [..|destruct H];
  unfold query_analytics, get_realtime_data, get_traffic_sources, get_user_demographics,
    get_page_performance, get_conversion_data, get_custom_report in *;
  cbn [Tool.name Tool.Args Tool.inputSchema Tool.handler] in *.

(** Exposes the single backend call of a handler. *)
Ltac open_handler :=
  unfold query_analytics_handler, get_realtime_data_handler, get_traffic_sources_handler,
    get_user_demographics_handler, get_page_performance_handler,
    get_conversion_data_handler, get_custom_report_handler,
    analyticsDataClient.runReport, analyticsDataClient.runRealtimeReport.

Lemma run_map {A B : Type} (backend : Backend) (m : Async A) (g : A -> B) :
  run backend (x <- m ;; Resolve (g x))
  = (fst (run backend m), mapSettled g (snd (run backend m))).
Proof.
  induction m as [a|call k IH]; simpl; [reflexivity|].
  destruct (backend call) as [tuple|reason]; simpl; [|reflexivity].
  rewrite IH. destruct (run backend (k tuple)); reflexivity.
Qed.

(** ** Dispatch *)

Section Dispatch.

Variable env : string -> option string.
Variable defaultApplied : bool.
Variable backend : Backend.

Lemma findTool_registered (name : string) (tool : Tool.t) :
  findTool env defaultApplied name = Some tool ->
  In tool (registeredTools env defaultApplied) /\ Tool.name tool = name.
Proof.
  unfold findTool. intros H. apply find_some in H as [Hin Heq].
  split; [exact Hin|]. apply String.eqb_eq. exact Heq.
Qed.

(** An accepted call runs the handler of a registered tool on the parsed
    arguments. *)
Lemma accepted_call (name : string) (arguments : json) :
  accepts env defaultApplied name arguments = true ->
  exists tool args,
    In tool (registeredTools env defaultApplied)
    /\ Tool.name tool = name
    /\ Tool.inputSchema tool (Some arguments) = Valid args
    /\ callsOf env defaultApplied backend name arguments
       = fst (run backend (Tool.handler tool args))
    /\ outcomeOf env defaultApplied backend name arguments
       = mapSettled ToolResult (snd (run backend (Tool.handler tool args))).
Proof.
  unfold accepts, callsOf, outcomeOf, callTool. intros H.
  destruct (findTool env defaultApplied name) as [tool|] eqn:Hfind; [|discriminate].
  destruct (Tool.inputSchema tool (Some arguments)) as [args|] eqn:Hparse; [|discriminate].
  apply findTool_registered in Hfind as [Hin Hname].
  exists tool, args. rewrite run_map. simpl. auto.
Qed.

(** Arguments that fail the schema are answered without any backend call. *)
Lemma invalid_call (name : string) (arguments : json) (tool : Tool.t) (issue : ZodIssue) :
  findTool env defaultApplied name = Some tool ->
  Tool.inputSchema tool (Some arguments) = Invalid issue ->
  accepts env defaultApplied name arguments = false
  /\ run backend (callTool env defaultApplied name arguments)
     = ([], Fulfilled (InvalidParams issue)).
Proof.
  unfold accepts, callTool. intros -> ->. split; reflexivity.
Qed.

(** A call that is not accepted reaches no backend. *)
Lemma rejected_call (name : string) (arguments : json) :
  accepts env defaultApplied name arguments = false ->
  callsOf env defaultApplied backend name arguments = [].
Proof.
  unfold accepts, callsOf, callTool. intros H.
  destruct (findTool env defaultApplied name) as [tool|]; [|reflexivity].
  destruct (Tool.inputSchema tool (Some arguments)); [discriminate|reflexivity].
Qed.

(** Every handler makes exactly one backend call, whose [property] is
    [buildProperty] of the override carried by the arguments. *)
Lemma handler_property (tool : Tool.t) (arguments : json) (args : Tool.Args tool) :
  In tool (registeredTools env defaultApplied) ->
  Tool.inputSchema tool (Some arguments) = Valid args ->
  exists call,
    fst (run backend (Tool.handler tool args)) = [call]
    /\ propertyOf call
       = buildProperty env (Some {| Overrides.propertyId := overrideOf arguments |}).
Proof.
  intros Hin Hparse. each_tool Hin.
  all: schema_inv Hparse.
  all: match goal with
       | Hp : z.optional z.string _ = Valid _ |- _ =>
           apply optional_string_Valid in Hp; subst
       end.
  all: open_handler; eexists; split; [apply run_single|reflexivity].
Qed.

End Dispatch.

(** ** Resolution of the property *)

Lemma truthy_nonempty (s : string) : s <> "" -> truthy (Some s) = true.
Proof.
  intros H. simpl. destruct (String.eqb_spec s ""); [contradiction|reflexivity].
Qed.

Lemma resolveId_override env (override : string) :
  override <> "" ->
  resolveId env (Some {| Overrides.propertyId := Some override |}) = Some override.
Proof.
  intros H. unfold resolveId, or_. simpl Overrides.propertyId.
  rewrite (truthy_nonempty _ H). reflexivity.
Qed.

Lemma resolveId_fallback env (override : option string) :
  truthy override = false ->
  resolveId env (Some {| Overrides.propertyId := override |}) = propertyId env.
Proof.
  intros H. unfold resolveId, or_. simpl Overrides.propertyId.
  rewrite H. reflexivity.
Qed.

Lemma buildProperty_resolved env overrides (id : string) :
  resolveId env overrides = Some id ->
  id <> "" ->
  buildProperty env overrides = Some ("properties/" ++ id).
Proof.
  intros Hid Hne. unfold buildProperty. rewrite Hid.
  rewrite (truthy_nonempty _ Hne). reflexivity.
Qed.

Lemma buildProperty_unresolved env overrides :
  truthy (resolveId env overrides) = false ->
  buildProperty env overrides = None.
Proof.
  intros H. unfold buildProperty. rewrite H. reflexivity.
Qed.

Section Resolution.

Variable env : string -> option string.
Variable defaultApplied : bool.
Variable backend : Backend.

(** The one backend call of an accepted tool call and its [property]. *)
Lemma accepted_property (name : string) (arguments : json) :
  accepts env defaultApplied name arguments = true ->
  exists call,
    callsOf env defaultApplied backend name arguments = [call]
    /\ propertyOf call
       = buildProperty env (Some {| Overrides.propertyId := overrideOf arguments |}).
Proof.
  intros H.
  destruct (accepted_call env defaultApplied backend name arguments H)
    as (tool & args & Hin & _ & Hparse & Hcalls & _).
  destruct (handler_property env defaultApplied backend tool arguments args Hin Hparse)
    as (call & Hrun & Hprop).
  exists call. rewrite Hcalls. auto.
Qed.

(** C1 (amended): for every accepted tool call whose arguments carry a
    non-empty [propertyId] override, the identifier resolved is the
    override, whatever the process-wide default is, and the single backend
    call is made on ["properties/" ++ override]. *)
Theorem nonempty_override_is_resolved (name : string) (arguments : json) (override : string) :
  accepts env defaultApplied name arguments = true ->
  overrideOf arguments = Some override ->
  override <> "" ->
  resolveId env (Some {| Overrides.propertyId := overrideOf arguments |}) = Some override
  /\ exists call,
       callsOf env defaultApplied backend name arguments = [call]
       /\ propertyOf call = Some ("properties/" ++ override).
Proof.
  intros Hacc Hover Hne.
  assert (Hid : resolveId env (Some {| Overrides.propertyId := overrideOf arguments |})
                = Some override)
    by (rewrite Hover; apply resolveId_override; exact Hne).
  split; [exact Hid|].
  destruct (accepted_property name arguments Hacc) as (call & Hcalls & Hprop).
  exists call. split; [exact Hcalls|].
  rewrite Hprop. apply buildProperty_resolved; assumption.
Qed.

(** C5: for every accepted tool call without a [propertyId] override, when
    no process-wide default was captured at startup, the resolved
    identifier is [undefined] and the backend operation is still invoked,
    once, with an [undefined] property. *)
Theorem unresolved_property_reaches_backend (name : string) (arguments : json) :
  accepts env defaultApplied name arguments = true ->
  overrideOf arguments = None ->
  propertyId env = None ->
  resolveId env (Some {| Overrides.propertyId := overrideOf arguments |}) = None
  /\ exists call,
       callsOf env defaultApplied backend name arguments = [call]
       /\ propertyOf call = None.
Proof.
  intros Hacc Hover Hdefault.
  assert (Hid : resolveId env (Some {| Overrides.propertyId := overrideOf arguments |}) = None)
    by (rewrite Hover, resolveId_fallback by reflexivity; exact Hdefault).
  split; [exact Hid|].
  destruct (accepted_property name arguments Hacc) as (call & Hcalls & Hprop).
  exists call. split; [exact Hcalls|].
  rewrite Hprop. apply buildProperty_unresolved. rewrite Hid. reflexivity.
Qed.

(** C9: for every accepted tool call in which a (non-empty) identifier [id]
    is resolved, from the override or from the default, the property sent
    to the backend is ["properties/" ++ id] and not [id] itself. *)
Theorem property_is_prefixed (name : string) (arguments : json) (id : string) :
  accepts env defaultApplied name arguments = true ->
  resolveId env (Some {| Overrides.propertyId := overrideOf arguments |}) = Some id ->
  id <> "" ->
  exists call,
    callsOf env defaultApplied backend name arguments = [call]
    /\ propertyOf call = Some ("properties/" ++ id)
    /\ propertyOf call <> Some id.
Proof.
  intros Hacc Hid Hne.
  destruct (accepted_property name arguments Hacc) as (call & Hcalls & Hprop).
  exists call. split; [exact Hcalls|].
  rewrite Hprop, (buildProperty_resolved _ _ _ Hid Hne).
  split; [reflexivity|].
  intros H. injection H as H.
  apply (f_equal String.length) in H. simpl in H. lia.
Qed.

(** C10: for every accepted tool call whose [propertyId] override is the
    empty string, the override counts as absent: the identifier resolved is
    the process-wide default; with a default configured the call is made
    on ["properties/" ++ default]; with none the property sent is
    [undefined]. *)
Theorem empty_override_is_absent (name : string) (arguments : json) :
  accepts env defaultApplied name arguments = true ->
  overrideOf arguments = Some "" ->
  resolveId env (Some {| Overrides.propertyId := overrideOf arguments |}) = propertyId env
  /\ exists call,
       callsOf env defaultApplied backend name arguments = [call]
       /\ (forall default, propertyId env = Some default -> default <> "" ->
           propertyOf call = Some ("properties/" ++ default))
       /\ (propertyId env = None -> propertyOf call = None).
Proof.
  intros Hacc Hover.
  assert (Hid : resolveId env (Some {| Overrides.propertyId := overrideOf arguments |})
                = propertyId env)
    by (rewrite Hover; apply resolveId_fallback; reflexivity).
  split; [exact Hid|].
  destruct (accepted_property name arguments Hacc) as (call & Hcalls & Hprop).
  exists call. split; [exact Hcalls|]. split.
  - intros default Hdefault Hne. rewrite Hprop.
    apply buildProperty_resolved; [rewrite Hid; exact Hdefault|exact Hne].
  - intros Hnone. rewrite Hprop. apply buildProperty_unresolved.
    rewrite Hid, Hnone. reflexivity.
Qed.

End Resolution.

(** ** The lists of a request *)

Lemma map_nonempty {A B : Type} (f : A -> B) (l : list A) :
  l <> [] -> map f l <> [].
Proof.
  destruct l; [contradiction|discriminate].
Qed.

Lemma names_of_wrapped (names : list string) :
  map Named.name (map wrapName names) = names.
Proof.
  induction names as [|n names IH]; simpl; [reflexivity|].
  rewrite IH. reflexivity.
Qed.

Lemma argument_object (key : string) (arguments value : json) :
  argument key arguments = Some value ->
  exists fields, arguments = JObj fields /\ getField key fields = Some value.
Proof.
  destruct arguments; simpl; try discriminate. eauto.
Qed.

Section Requests.

Variable env : string -> option string.
Variable defaultApplied : bool.
Variable backend : Backend.

(** C2 (amended): every request of [runReport] carries a non-empty metrics
    list and a non-empty date-range list; every request of
    [runRealtimeReport] carries a non-empty metrics list provided the
    arguments do not hold an empty [metrics] array. *)
Theorem request_lists_nonempty (name : string) (arguments : json) (call : BackendCall) :
  In call (callsOf env defaultApplied backend name arguments) ->
  match call with
  | RunReport request =>
      RunReportRequest.metrics request <> []
      /\ RunReportRequest.dateRanges request <> []
  | RunRealtimeReport request =>
      argument "metrics" arguments <> Some (JArr []) ->
      RunRealtimeReportRequest.metrics request <> []
  end.
Proof.
  intros Hcall.
  destruct (accepts env defaultApplied name arguments) eqn:Hacc.
  2: { rewrite (rejected_call env defaultApplied backend name arguments Hacc) in Hcall.
       destruct Hcall. }
  destruct (accepted_call env defaultApplied backend name arguments Hacc)
    as (tool & args & Hin & _ & Hparse & Hcalls & _).
  rewrite Hcalls in Hcall. clear Hcalls Hacc.
  each_tool Hin.
  all: schema_inv Hparse.
  all: revert Hcall; open_handler; rewrite run_single.
  all: intros [<-|[]]; cbn [RunReportRequest.metrics RunReportRequest.dateRanges
                             RunRealtimeReportRequest.metrics
                             ReportArgs.metrics ReportArgs.dateRanges
                             RealtimeArgs.metrics].
  all: try (split; [apply map_nonempty|]; eapply nonempty_Valid; eassumption).
  all: try (split; discriminate).
  intros Hmetrics. apply map_nonempty.
  eapply default_optional_array_nonempty; [discriminate| |eassumption].
  exact Hmetrics.
Qed.

(** C3: a call of [get_custom_report] or of [query_analytics] whose
    [metrics] is the empty list fails the input schema: the handler does
    not run, no backend call is made and the call is answered with an
    input-validation failure. *)
Theorem empty_metrics_rejected (name : string) (arguments : json) :
  In name ["get_custom_report"; "query_analytics"] ->
  argument "metrics" arguments = Some (JArr []) ->
  accepts env defaultApplied name arguments = false
  /\ exists issue,
       run backend (callTool env defaultApplied name arguments)
       = ([], Fulfilled (InvalidParams issue)).
Proof.
  intros Hname Hmetrics.
  apply argument_object in Hmetrics as (fields & -> & Hmetrics).
  assert (Hinvalid : forall tool,
             In tool [get_custom_report env defaultApplied;
                      query_analytics env defaultApplied] ->
             exists issue, Tool.inputSchema tool (Some (JObj fields)) = Invalid issue).
  { intros tool [<-|[<-|[]]]; cbn [Tool.inputSchema get_custom_report query_analytics].
    all: unfold get_custom_report_schema, query_analytics_schema, z.object.
    all: rewrite Hmetrics.
    all: repeat first [ solve [eexists; reflexivity] | apply andThen_Invalid; intros ? ]. }
  destruct Hname as [<-|[<-|[]]].
  - destruct (Hinvalid (get_custom_report env defaultApplied)) as (issue & Hissue);
      [simpl; auto|].
    destruct (invalid_call env defaultApplied backend "get_custom_report" (JObj fields)
                _ issue eq_refl Hissue) as [Hrejected Hanswer].
    split; [exact Hrejected|]. exists issue. exact Hanswer.
  - destruct (Hinvalid (query_analytics env defaultApplied)) as (issue & Hissue);
      [simpl; auto|].
    destruct (invalid_call env defaultApplied backend "query_analytics" (JObj fields)
                _ issue eq_refl Hissue) as [Hrejected Hanswer].
    split; [exact Hrejected|]. exists issue. exact Hanswer.
Qed.

End Requests.

(** ** Defaults and name lists *)

Section Shaping.

Variable env : string -> option string.
Variable defaultApplied : bool.
Variable backend : Backend.

(** C6: an accepted call of [get_realtime_data] whose arguments hold neither
    [dimensions] nor [metrics] sends one realtime request with dimensions
    [[{ name: "country" }]] and metrics [[{ name: "activeUsers" }]]. *)
Theorem realtime_defaults (arguments : json) :
  accepts env defaultApplied "get_realtime_data" arguments = true ->
  argument "dimensions" arguments = None ->
  argument "metrics" arguments = None ->
  callsOf env defaultApplied backend "get_realtime_data" arguments
  = [ RunRealtimeReport
        {| RunRealtimeReportRequest.property :=
             buildProperty env (Some {| Overrides.propertyId := overrideOf arguments |});
           RunRealtimeReportRequest.dimensions := [ {| Named.name := "country" |} ];
           RunRealtimeReportRequest.metrics := [ {| Named.name := "activeUsers" |} ] |} ].
Proof.
  intros Hacc Hdims Hmetrics.
  destruct (accepted_call env defaultApplied backend _ arguments Hacc)
    as (tool & args & Hin & Hname & Hparse & -> & _).
  each_tool Hin; try discriminate Hname.
  schema_inv Hparse. simpl in Hdims, Hmetrics.
  rewrite Hdims in Hv0. rewrite Hmetrics in Hv1.
  apply optional_string_Valid in Hv. subst.
  open_handler. rewrite run_single.
  apply default_optional_absent in Hv0 as [->| ->], Hv1 as [->| ->]; reflexivity.
Qed.

(** C7: an accepted call of a fixed-preset tool whose arguments hold neither
    [startDate] nor [endDate] sends one report request with the single date
    range [{ startDate: "7daysAgo", endDate: "today" }] and the dimension
    and metric lists of the tool's row of the preset table. *)
Theorem preset_defaults (name : string) (dimensions metrics : list string)
  (arguments : json) :
  In (name, (dimensions, metrics)) specPresetTable ->
  accepts env defaultApplied name arguments = true ->
  argument "startDate" arguments = None ->
  argument "endDate" arguments = None ->
  callsOf env defaultApplied backend name arguments
  = [ RunReport
        {| RunReportRequest.property :=
             buildProperty env (Some {| Overrides.propertyId := overrideOf arguments |});
           RunReportRequest.dateRanges :=
             [ {| DateRange.startDate := "7daysAgo"; DateRange.endDate := "today" |} ];
           RunReportRequest.dimensions := map wrapName dimensions;
           RunReportRequest.metrics := map wrapName metrics;
           RunReportRequest.dimensionFilter := None;
           RunReportRequest.metricFilter := None;
           RunReportRequest.limit := None;
           RunReportRequest.offset := None;
           RunReportRequest.orderBys := None |} ].
Proof.
  intros Hrow Hacc Hstart Hend.
  destruct (accepted_call env defaultApplied backend _ arguments Hacc)
    as (tool & args & Hin & Hname & Hparse & -> & _).
  each_tool Hin.
  all: destruct Hrow as [Hrow|[Hrow|[Hrow|[Hrow|[]]]]]; try discriminate Hrow.
  all: inversion Hrow; subst; clear Hrow.
  all: schema_inv Hparse; simpl in Hstart, Hend.
  all: repeat match goal with
         | H : z.default_optional _ _ _ (getField _ _) = Valid _ |- _ =>
             first [rewrite Hstart in H | rewrite Hend in H]
         | H : z.optional z.string _ = Valid _ |- _ =>
             apply optional_string_Valid in H; subst
         end.
  all: open_handler; rewrite run_single.
  all: repeat match goal with
         | H : z.default_optional _ _ _ None = Valid _ |- _ =>
             apply default_optional_absent in H as [->| ->]
         end.
  all: reflexivity.
Qed.

(** C8: for the tools that take name lists, a list of dimension names and a
    list of metric names supplied in the arguments reach the backend as one
    [{ name }] record per string, in the order of the input list. *)
Theorem names_wrapped_in_order (name : string) (arguments : json) (names : list string) :
  In name ["query_analytics"; "get_custom_report"; "get_realtime_data"] ->
  accepts env defaultApplied name arguments = true ->
  exists call,
    callsOf env defaultApplied backend name arguments = [call]
    /\ (argument "dimensions" arguments = Some (JArr (map JStr names)) ->
        dimensionsOf call = map wrapName names
        /\ map Named.name (dimensionsOf call) = names
        /\ length (dimensionsOf call) = length names)
    /\ (argument "metrics" arguments = Some (JArr (map JStr names)) ->
        metricsOf call = map wrapName names
        /\ map Named.name (metricsOf call) = names
        /\ length (metricsOf call) = length names).
Proof.
  intros Hname Hacc.
  destruct (accepted_call env defaultApplied backend _ arguments Hacc)
    as (tool & args & Hin & Htool & Hparse & -> & _).
  assert (Hwrapped : forall l, l = map wrapName names ->
             l = map wrapName names /\ map Named.name l = names
             /\ length l = length names).
  { intros l ->. rewrite names_of_wrapped, length_map. auto. }
  each_tool Hin.
  all: try (exfalso;
            repeat (destruct Hname as [Hname|Hname]; [discriminate Hname|]);
            exact Hname).
  all: schema_inv Hparse; open_handler; rewrite run_single.
  all: eexists; split; [reflexivity|].
  all: cbn [dimensionsOf metricsOf RunReportRequest.dimensions RunReportRequest.metrics
            RunRealtimeReportRequest.dimensions RunRealtimeReportRequest.metrics
            ReportArgs.dimensions ReportArgs.metrics
            RealtimeArgs.dimensions RealtimeArgs.metrics argument].
  all: split; intros Hsupplied; apply Hwrapped.
  all: repeat match goal with
         | H : _ (getField _ _) = Valid _ |- _ => rewrite Hsupplied in H
         | H : _ _ (getField _ _) = Valid _ |- _ => rewrite Hsupplied in H
         | H : _ _ _ _ (getField _ _) = Valid _ |- _ => rewrite Hsupplied in H
         end.
  all: repeat match goal with
         | H : z.default_optional _ _ _ (Some (JArr (map JStr _))) = Valid _ |- _ =>
             apply default_optional_strings in H; subst
         | H : z.optional (z.array z.string) (Some (JArr (map JStr _))) = Valid _ |- _ =>
             simpl in H; rewrite parseAll_strings in H; inversion H; subst; clear H
         | H : z.nonempty (z.array z.string) (Some (JArr (map JStr _))) = Valid _ |- _ =>
             unfold z.nonempty in H; simpl in H; rewrite parseAll_strings in H;
             simpl in H; destruct names; inversion H; subst; clear H
         end.
  all: reflexivity.
Qed.

End Shaping.

(** ** The text envelope *)

(** A non-empty object is printed one member per line, two spaces deep, in
    the order of its own properties. *)
Lemma stringify_object (field : string * json) (fields : list (string * json)) :
  JSON_stringify (Some (JObj (field :: fields)))
  = Some ("{" ++ newline ++ gap
              ++ join ("," ++ newline ++ gap)
                   (map (fun kv => quoteJSONString (fst kv) ++ ": " ++ serialize gap (snd kv))
                        (field :: fields))
              ++ newline ++ "}").
Proof. reflexivity. Qed.

(** A non-empty array is printed one element per line, two spaces deep. *)
Lemma stringify_array (item : json) (items : list json) :
  JSON_stringify (Some (JArr (item :: items)))
  = Some ("[" ++ newline ++ gap
              ++ join ("," ++ newline ++ gap) (map (serialize gap) (item :: items))
              ++ newline ++ "]").
Proof. reflexivity. Qed.

Example stringify_sample :
  JSON_stringify (Some (JObj [ ("rows", JArr [ JObj [ ("b", JNum 2); ("a", JStr "x") ] ]);
                               ("rowCount", JNum 1) ]))
  = Some ("{" ++ newline
          ++ "  " ++ quoteJSONString "rows" ++ ": [" ++ newline
          ++ "    {" ++ newline
          ++ "      " ++ quoteJSONString "b" ++ ": 2," ++ newline
          ++ "      " ++ quoteJSONString "a" ++ ": " ++ quoteJSONString "x" ++ newline
          ++ "    }" ++ newline
          ++ "  ]," ++ newline
          ++ "  " ++ quoteJSONString "rowCount" ++ ": 1" ++ newline
          ++ "}").
Proof. reflexivity. Qed.

(** Quotes, backslashes and control characters are escaped. *)
Example quote_escapes :
  quoteJSONString (String "a" (String dquote (String "\" (String "010" (String "001" "z")))))
  = String dquote
      (String "a" (String "\" (String dquote ("\\" ++ "\n" ++ "\u0001" ++ "z"
                                               ++ String dquote EmptyString)))).
Proof. reflexivity. Qed.

Section Envelope.

Variable env : string -> option string.
Variable defaultApplied : bool.
Variable backend : Backend.

(** Every handler answers with [toToolTextContent] of the first element of
    the tuple its one backend call is fulfilled with. *)
Lemma handler_output (tool : Tool.t) (args : Tool.Args tool) :
  In tool (registeredTools env defaultApplied) ->
  exists call,
    fst (run backend (Tool.handler tool args)) = [call]
    /\ snd (run backend (Tool.handler tool args))
       = mapSettled (fun tuple => toToolTextContent (first tuple)) (backend call).
Proof.
  intros Hin. each_tool Hin.
  all: open_handler; eexists; split; [apply run_single|].
  all: simpl; destruct (backend _); reflexivity.
Qed.

(** C4: when the backend fulfils the call of an accepted tool invocation
    with a tuple whose first element is the result [R] (JSON data whose
    integers are safe), the tool output is exactly one block of type
    ["text"] whose text is [JSON.stringify(R, null, 2)]; the other elements
    of the tuple play no part.  The text is laid out as follows: scalars on
    their own; an empty array or object as ["[]"] or ["{}"]; the elements of
    an array and the members of an object one per line, in their order, two
    spaces deeper than the line that opens them, a member as its quoted key,
    a colon, a space and its value. *)
Theorem output_is_stringified_result (name : string) (arguments : json)
  (R : json) (others : ResponseTuple) :
  accepts env defaultApplied name arguments = true ->
  safeIntegers R = true ->
  (forall call, In call (callsOf env defaultApplied backend name arguments) ->
                backend call = Fulfilled (Some R :: others)) ->
  let nl := String "010"%char EmptyString in
  outcomeOf env defaultApplied backend name arguments
  = Fulfilled (ToolResult
      {| ToolOutput.content :=
           [ {| ContentBlock.type := "text";
                ContentBlock.text := Some (serialize "" R) |} ] |})
  /\ (forall indent,
        serialize indent JNull = "null"
        /\ serialize indent (JBool true) = "true"
        /\ serialize indent (JBool false) = "false"
        /\ serialize indent (JArr []) = "[]"
        /\ serialize indent (JObj []) = "{}")
  /\ (forall indent s, serialize indent (JStr s) = quoteJSONString s)
  /\ (forall indent n,
        serialize indent (JNum n) = NilZero.string_of_int (Z.to_int n))
  /\ (forall indent item items,
        serialize indent (JArr (item :: items))
        = "[" ++ nl ++ (indent ++ "  ")
              ++ join ("," ++ nl ++ (indent ++ "  "))
                   (map (serialize (indent ++ "  ")) (item :: items))
              ++ nl ++ indent ++ "]")
  /\ (forall indent field fields,
        serialize indent (JObj (field :: fields))
        = "{" ++ nl ++ (indent ++ "  ")
              ++ join ("," ++ nl ++ (indent ++ "  "))
                   (map (fun member =>
                           quoteJSONString (fst member) ++ ": "
                           ++ serialize (indent ++ "  ") (snd member))
                        (field :: fields))
              ++ nl ++ indent ++ "}").
Proof.
  intros Hacc _ Hbackend nl.
  split; [|repeat split].
  destruct (accepted_call env defaultApplied backend name arguments Hacc)
    as (tool & args & Hin & _ & _ & Hcalls & Houtcome).
  destruct (handler_output tool args Hin) as (call & Hcall & Hout).
  rewrite Houtcome, Hout, (Hbackend call).
  - reflexivity.
  - rewrite Hcalls, Hcall. left. reflexivity.
Qed.

End Envelope.

(** * The properties on the sample inputs *)

Lemma nonempty_override_is_resolved_witness :
  overrideOf sampleQuery = Some "987"
  /\ resolveId envConfigured (Some {| Overrides.propertyId := overrideOf sampleQuery |})
     = Some "987"
  /\ exists call,
       callsOf envConfigured false sampleBackend "query_analytics" sampleQuery = [call]
       /\ propertyOf call = Some ("properties/" ++ "987").
Proof.
  split; [reflexivity|].
  apply (nonempty_override_is_resolved envConfigured false sampleBackend
           "query_analytics" sampleQuery "987");
    [reflexivity|reflexivity|discriminate].
Defined.

(** C1 as stated fails on an empty override: with [GA4_PROPERTY_ID=123456]
    and [propertyId: ""] supplied, the identifier resolved is the default and
    the backend is called on ["properties/123456"]. *)
Lemma empty_override_resolves_to_default :
  accepts envConfigured false "get_traffic_sources" emptyOverride = true
  /\ overrideOf emptyOverride = Some ""
  /\ resolveId envConfigured (Some {| Overrides.propertyId := overrideOf emptyOverride |})
     <> overrideOf emptyOverride
  /\ resolveId envConfigured (Some {| Overrides.propertyId := overrideOf emptyOverride |})
     = propertyId envConfigured
  /\ map propertyOf (callsOf envConfigured false sampleBackend "get_traffic_sources"
                             emptyOverride)
     = [ Some "properties/123456" ].
Proof.
  repeat split; try reflexivity. discriminate.
Qed.

Lemma request_lists_nonempty_witness :
  In sampleReportCall
     (callsOf envUnset false sampleBackend "get_custom_report" sampleReport)
  /\ metricsOf sampleReportCall <> []
  /\ RunReportRequest.dateRanges
       {| RunReportRequest.property := None;
          RunReportRequest.dateRanges :=
            [ {| DateRange.startDate := "2024-01-01"; DateRange.endDate := "2024-01-31" |} ];
          RunReportRequest.dimensions := [];
          RunReportRequest.metrics := [ {| Named.name := "sessions" |} ];
          RunReportRequest.dimensionFilter := None;
          RunReportRequest.metricFilter := None;
          RunReportRequest.limit := None;
          RunReportRequest.offset := None;
          RunReportRequest.orderBys := None |} <> [].
Proof.
  split; [left; reflexivity|].
  exact (request_lists_nonempty envUnset false sampleBackend "get_custom_report"
           sampleReport sampleReportCall (or_introl eq_refl)).
Defined.

(** C2 as stated fails on [get_realtime_data] with [metrics: []]: the schema
    accepts the empty list, the handler keeps it, and the realtime request
    reaches the backend with no metric, whichever zod is installed. *)
Lemma realtime_empty_metrics_reach_backend :
  accepts envUnset false "get_realtime_data" emptyMetrics = true
  /\ callsOf envUnset false sampleBackend "get_realtime_data" emptyMetrics
     = [ RunRealtimeReport
           {| RunRealtimeReportRequest.property := None;
              RunRealtimeReportRequest.dimensions := [ {| Named.name := "country" |} ];
              RunRealtimeReportRequest.metrics := [] |} ]
  /\ map metricsOf (callsOf envUnset true sampleBackend "get_realtime_data" emptyMetrics)
     = [ [] ].
Proof.
  repeat split; reflexivity.
Qed.

Lemma empty_metrics_rejected_witness :
  argument "metrics" (JObj [ ("metrics", JArr []); ("dateRanges", sampleDateRanges) ])
  = Some (JArr [])
  /\ accepts envConfigured false "get_custom_report"
       (JObj [ ("metrics", JArr []); ("dateRanges", sampleDateRanges) ]) = false
  /\ exists issue,
       run sampleBackend
           (callTool envConfigured false "get_custom_report"
              (JObj [ ("metrics", JArr []); ("dateRanges", sampleDateRanges) ]))
       = ([], Fulfilled (InvalidParams issue)).
Proof.
  split; [reflexivity|].
  apply (empty_metrics_rejected envConfigured false sampleBackend "get_custom_report"
           (JObj [ ("metrics", JArr []); ("dateRanges", sampleDateRanges) ]));
    [left; reflexivity|reflexivity].
Defined.

Lemma output_is_stringified_result_witness :
  let nl := String "010"%char EmptyString in
  let dq := String "034"%char EmptyString in
  outcomeOf envConfigured false reportBackend "get_custom_report" sampleReport
  = Fulfilled (ToolResult
      {| ToolOutput.content :=
           [ {| ContentBlock.type := "text";
                ContentBlock.text :=
                  Some
      ("{"
       ++ nl ++ "  " ++ dq ++ "rows" ++ dq ++ ": ["
       ++ nl ++ "    {"
       ++ nl ++ "      " ++ dq ++ "dimensionValues" ++ dq ++ ": ["
       ++ nl ++ "        {"
       ++ nl ++ "          " ++ dq ++ "value" ++ dq ++ ": " ++ dq ++ "France" ++ dq
       ++ nl ++ "        }"
       ++ nl ++ "      ],"
       ++ nl ++ "      " ++ dq ++ "metricValues" ++ dq ++ ": ["
       ++ nl ++ "        {"
       ++ nl ++ "          " ++ dq ++ "value" ++ dq ++ ": " ++ dq ++ "42" ++ dq
       ++ nl ++ "        }"
       ++ nl ++ "      ]"
       ++ nl ++ "    }"
       ++ nl ++ "  ],"
       ++ nl ++ "  " ++ dq ++ "rowCount" ++ dq ++ ": 1,"
       ++ nl ++ "  " ++ dq ++ "metadata" ++ dq ++ ": {},"
       ++ nl ++ "  " ++ dq ++ "kind" ++ dq ++ ": " ++ dq ++ "analyticsData#runReport" ++ dq
       ++ nl ++ "}") |} ] |}).
Proof.
  exact (proj1 (output_is_stringified_result envConfigured false reportBackend
                  "get_custom_report" sampleReport sampleRows
                  [None; Some (JObj [("status", JNum 200)])]
                  eq_refl eq_refl (fun call _ => eq_refl))).
Defined.

Lemma unresolved_property_reaches_backend_witness :
  resolveId envUnset (Some {| Overrides.propertyId := overrideOf sampleReport |}) = None
  /\ exists call,
       callsOf envUnset true sampleBackend "get_custom_report" sampleReport = [call]
       /\ propertyOf call = None.
Proof.
  apply (unresolved_property_reaches_backend envUnset true sampleBackend
           "get_custom_report" sampleReport); reflexivity.
Defined.

Lemma realtime_defaults_witness :
  callsOf envConfigured false sampleBackend "get_realtime_data" (JObj [])
  = [ RunRealtimeReport
        {| RunRealtimeReportRequest.property :=
             buildProperty envConfigured
               (Some {| Overrides.propertyId := overrideOf (JObj []) |});
           RunRealtimeReportRequest.dimensions := [ {| Named.name := "country" |} ];
           RunRealtimeReportRequest.metrics := [ {| Named.name := "activeUsers" |} ] |} ].
Proof.
  apply (realtime_defaults envConfigured false sampleBackend (JObj [])); reflexivity.
Defined.

Lemma preset_defaults_witness :
  callsOf envConfigured true sampleBackend "get_page_performance" (JObj [])
  = [ RunReport
        {| RunReportRequest.property :=
             buildProperty envConfigured
               (Some {| Overrides.propertyId := overrideOf (JObj []) |});
           RunReportRequest.dateRanges :=
             [ {| DateRange.startDate := "7daysAgo"; DateRange.endDate := "today" |} ];
           RunReportRequest.dimensions := map wrapName ["pagePath"];
           RunReportRequest.metrics :=
             map wrapName ["screenPageViews"; "averageSessionDuration"];
           RunReportRequest.dimensionFilter := None;
           RunReportRequest.metricFilter := None;
           RunReportRequest.limit := None;
           RunReportRequest.offset := None;
           RunReportRequest.orderBys := None |} ].
Proof.
  apply (preset_defaults envConfigured true sampleBackend "get_page_performance"
           ["pagePath"] ["screenPageViews"; "averageSessionDuration"] (JObj []));
    [right; right; left; reflexivity|reflexivity|reflexivity|reflexivity].
Defined.

Lemma names_wrapped_in_order_witness :
  argument "dimensions" sampleQuery = Some (JArr (map JStr ["country"; "city"]))
  /\ exists call,
       callsOf envConfigured false sampleBackend "query_analytics" sampleQuery = [call]
       /\ (argument "dimensions" sampleQuery = Some (JArr (map JStr ["country"; "city"])) ->
           dimensionsOf call = map wrapName ["country"; "city"]
           /\ map Named.name (dimensionsOf call) = ["country"; "city"]
           /\ length (dimensionsOf call) = length ["country"; "city"])
       /\ (argument "metrics" sampleQuery = Some (JArr (map JStr ["country"; "city"])) ->
           metricsOf call = map wrapName ["country"; "city"]
           /\ map Named.name (metricsOf call) = ["country"; "city"]
           /\ length (metricsOf call) = length ["country"; "city"]).
Proof.
  split; [reflexivity|].
  apply (names_wrapped_in_order envConfigured false sampleBackend "query_analytics"
           sampleQuery ["country"; "city"]);
    [left; reflexivity|reflexivity].
Defined.

Lemma property_is_prefixed_witness :
  exists call,
    callsOf envConfigured false sampleBackend "get_user_demographics" (JObj []) = [call]
    /\ propertyOf call = Some ("properties/" ++ "123456")
    /\ propertyOf call <> Some "123456".
Proof.
  apply (property_is_prefixed envConfigured false sampleBackend
           "get_user_demographics" (JObj []) "123456");
    [reflexivity|reflexivity|discriminate].
Defined.

Lemma empty_override_is_absent_witness :
  resolveId envConfigured (Some {| Overrides.propertyId := overrideOf emptyOverride |})
  = propertyId envConfigured
  /\ exists call,
       callsOf envConfigured false sampleBackend "get_traffic_sources" emptyOverride = [call]
       /\ (forall default, propertyId envConfigured = Some default -> default <> "" ->
           propertyOf call = Some ("properties/" ++ default))
       /\ (propertyId envConfigured = None -> propertyOf call = None).
Proof.
  apply (empty_override_is_absent envConfigured false sampleBackend
           "get_traffic_sources" emptyOverride); reflexivity.
Defined.

(** * Further properties of the handlers *)

(** [buildProperty] answers [undefined] or ["properties/" ++ id] for a
    non-empty [id] taken from the override or from one of the two
    environment variables. *)
Lemma buildProperty_shape env (override : option string) :
  buildProperty env (Some {| Overrides.propertyId := override |}) = None
  \/ exists id,
       id <> ""
       /\ buildProperty env (Some {| Overrides.propertyId := override |})
          = Some ("properties/" ++ id)
       /\ (override = Some id
           \/ env "GA4_PROPERTY_ID" = Some id
           \/ env "GA_PROPERTY_ID" = Some id).
Proof.
  unfold buildProperty, resolveId, propertyId, or_. cbn [Overrides.propertyId].
  assert (Hne : forall v s, truthy v = true -> v = Some s -> s <> "").
  { intros v s Hv -> ->. discriminate Hv. }
  destruct (truthy override) eqn:Ho.
  - rewrite Ho. destruct override as [o|]; [|discriminate Ho].
    right. exists o. split; [eapply Hne; eauto|]. auto.
  - destruct (truthy (env "GA4_PROPERTY_ID")) eqn:H4.
    + rewrite H4. destruct (env "GA4_PROPERTY_ID") as [p|] eqn:E4; [|discriminate H4].
      right. exists p. split; [eapply Hne; eauto|]. auto.
    + destruct (truthy (env "GA_PROPERTY_ID")) eqn:Hg; [|left; reflexivity].
      destruct (env "GA_PROPERTY_ID") as [q|] eqn:Eg; [|discriminate Hg].
      right. exists q. split; [eapply Hne; eauto|]. auto.
Qed.

Section Invocation.

Variable env : string -> option string.
Variable defaultApplied : bool.
Variable backend : Backend.

(** Each registered handler makes exactly one backend call, whatever the
    backend answers; when that call is rejected the handler rejects with the
    same reason, and when it is fulfilled the handler answers with the text
    envelope of the first tuple element. *)
Theorem handler_calls_backend_once (tool : Tool.t) (args : Tool.Args tool) :
  In tool (registeredTools env defaultApplied) ->
  exists call,
    fst (run backend (Tool.handler tool args)) = [call]
    /\ (forall reason, backend call = Rejected reason ->
        snd (run backend (Tool.handler tool args)) = Rejected reason)
    /\ (forall tuple, backend call = Fulfilled tuple ->
        snd (run backend (Tool.handler tool args))
        = Fulfilled (toToolTextContent (first tuple))).
Proof.
  intros Hin.
  destruct (handler_output env defaultApplied backend tool args Hin)
    as (call & Hcalls & Hout).
  exists call. split; [exact Hcalls|].
  split; intros x Hx; rewrite Hout, Hx; reflexivity.
Qed.

(** [get_realtime_data] is the one tool that calls [runRealtimeReport]; the
    six others call [runReport]. *)
Theorem backend_operation_by_tool (name : string) (arguments : json) :
  accepts env defaultApplied name arguments = true ->
  exists call,
    callsOf env defaultApplied backend name arguments = [call]
    /\ (name = "get_realtime_data" -> exists request, call = RunRealtimeReport request)
    /\ (name <> "get_realtime_data" -> exists request, call = RunReport request).
Proof.
  intros Hacc.
  destruct (accepted_call env defaultApplied backend name arguments Hacc)
    as (tool & args & Hin & Hname & _ & -> & _).
  each_tool Hin.
  all: open_handler; rewrite run_single; eexists; split; [reflexivity|].
  all: split; intros Hn; try discriminate Hn; try (exfalso; apply Hn; reflexivity).
  all: eexists; reflexivity.
Qed.

(** The property of any backend call is [undefined] or ["properties/" ++ id]
    where [id] is a non-empty string that is the override of the call or the
    value of [GA4_PROPERTY_ID] or of [GA_PROPERTY_ID]. *)
Theorem property_is_undefined_or_prefixed (name : string) (arguments : json)
  (call : BackendCall) :
  In call (callsOf env defaultApplied backend name arguments) ->
  propertyOf call = None
  \/ exists id,
       id <> ""
       /\ propertyOf call = Some ("properties/" ++ id)
       /\ (overrideOf arguments = Some id
           \/ env "GA4_PROPERTY_ID" = Some id
           \/ env "GA_PROPERTY_ID" = Some id).
Proof.
  intros Hcall.
  destruct (accepts env defaultApplied name arguments) eqn:Hacc.
  - destruct (accepted_property env defaultApplied backend name arguments Hacc)
      as (c & Hcalls & Hprop).
    rewrite Hcalls in Hcall. destruct Hcall as [<-|[]].
    rewrite Hprop. apply buildProperty_shape.
  - rewrite (rejected_call env defaultApplied backend name arguments Hacc) in Hcall.
    destruct Hcall.
Qed.

(** Without a usable override the default is read from [GA4_PROPERTY_ID]
    first: a non-empty [GA4_PROPERTY_ID] is used whatever [GA_PROPERTY_ID]
    holds; when it is unset or empty a non-empty [GA_PROPERTY_ID] is used;
    when both are unset or empty the property sent is [undefined]. *)
Theorem default_property_precedence (name : string) (arguments : json) :
  accepts env defaultApplied name arguments = true ->
  truthy (overrideOf arguments) = false ->
  exists call,
    callsOf env defaultApplied backend name arguments = [call]
    /\ (forall primary, env "GA4_PROPERTY_ID" = Some primary -> primary <> "" ->
        propertyOf call = Some ("properties/" ++ primary))
    /\ (truthy (env "GA4_PROPERTY_ID") = false ->
        forall fallback, env "GA_PROPERTY_ID" = Some fallback -> fallback <> "" ->
        propertyOf call = Some ("properties/" ++ fallback))
    /\ (truthy (env "GA4_PROPERTY_ID") = false ->
        truthy (env "GA_PROPERTY_ID") = false ->
        propertyOf call = None).
Proof.
  intros Hacc Hover.
  destruct (accepted_property env defaultApplied backend name arguments Hacc)
    as (call & Hcalls & Hprop).
  exists call. split; [exact Hcalls|].
  rewrite Hprop. unfold buildProperty.
  rewrite (resolveId_fallback env _ Hover). unfold propertyId, or_.
  split; [|split].
  - intros primary H4 Hne. pose proof (truthy_nonempty _ Hne) as Ht.
    rewrite H4, Ht. cbv iota. rewrite Ht. reflexivity.
  - intros H4 fallback Hg Hne. pose proof (truthy_nonempty _ Hne) as Ht.
    rewrite H4, Hg, Ht. reflexivity.
  - intros H4 Hg. rewrite H4, Hg. reflexivity.
Qed.

End Invocation.

(** ** What the report schemas let through *)

Lemma any_optional_Valid (input value : option json) :
  z.any_optional input = Valid value -> value = input.
Proof.
  intros H. inversion H. reflexivity.
Qed.

Lemma int_Valid (safe : bool) (n m : Z) :
  z.int safe n = Valid m -> m = n.
Proof.
  unfold z.int. destruct safe; [|intros H; inversion H; reflexivity].
  destruct (n <? - MAX_SAFE_INTEGER)%Z; [discriminate|].
  destruct (MAX_SAFE_INTEGER <? n)%Z; [discriminate|].
  intros H. inversion H. reflexivity.
Qed.

Lemma optional_positive_Valid safe (input : option json) (p : option Z) :
  z.optional (z.number_int_positive safe) input = Valid p ->
  p = match input with Some (JNum n) => Some n | _ => None end
  /\ forall n, p = Some n -> (0 < n)%Z.
Proof.
  destruct input as [[| |n| | | |]|]; simpl; intros H; try discriminate H.
  - destruct (z.int safe n) as [m|] eqn:Em; simpl in H; [|discriminate H].
    apply int_Valid in Em. subst m.
    destruct (0 <? n)%Z eqn:E; simpl in H; inversion H; subst.
    split; [reflexivity|]. intros m Hm. inversion Hm; subst. apply Z.ltb_lt. exact E.
  - inversion H. split; [reflexivity|]. discriminate.
Qed.

Lemma optional_nonnegative_Valid safe (input : option json) (p : option Z) :
  z.optional (z.number_int_nonnegative safe) input = Valid p ->
  p = match input with Some (JNum n) => Some n | _ => None end
  /\ forall n, p = Some n -> (0 <= n)%Z.
Proof.
  destruct input as [[| |n| | | |]|]; simpl; intros H; try discriminate H.
  - destruct (z.int safe n) as [m|] eqn:Em; simpl in H; [|discriminate H].
    apply int_Valid in Em. subst m.
    destruct (0 <=? n)%Z eqn:E; simpl in H; inversion H; subst.
    split; [reflexivity|]. intros m Hm. inversion Hm; subst. apply Z.leb_le. exact E.
  - inversion H. split; [reflexivity|]. discriminate.
Qed.

Lemma optional_positive_Invalid safe (n : Z) :
  (n <= 0)%Z ->
  z.optional (z.number_int_positive safe) (Some (JNum n)) = Invalid too_small.
Proof.
  intros H. unfold z.optional, z.number_int_positive, z.int, MAX_SAFE_INTEGER.
  destruct safe; cbn [andThen].
  all: repeat match goal with
         | |- context [if (?a <? ?b)%Z then _ else _] =>
             destruct (Z.ltb_spec a b); cbn [andThen]
         | |- context [if (?a <=? ?b)%Z then _ else _] =>
             destruct (Z.leb_spec a b); cbn [andThen]
         end.
  all: try reflexivity; lia.
Qed.

Lemma optional_nonnegative_Invalid safe (n : Z) :
  (n < 0)%Z ->
  z.optional (z.number_int_nonnegative safe) (Some (JNum n)) = Invalid too_small.
Proof.
  intros H. unfold z.optional, z.number_int_nonnegative, z.int, MAX_SAFE_INTEGER.
  destruct safe; cbn [andThen].
  all: repeat match goal with
         | |- context [if (?a <? ?b)%Z then _ else _] =>
             destruct (Z.ltb_spec a b); cbn [andThen]
         | |- context [if (?a <=? ?b)%Z then _ else _] =>
             destruct (Z.leb_spec a b); cbn [andThen]
         end.
  all: try reflexivity; lia.
Qed.

Lemma optional_string_Invalid (value : json) :
  (forall s, value <> JStr s) ->
  z.optional z.string (Some value) = Invalid invalid_type.
Proof.
  intros H. destruct value; try reflexivity. destruct (H s). reflexivity.
Qed.

Lemma nonempty_array_Valid {A : Type} (inner : Schema A) (input : option json) (l : list A) :
  z.nonempty (z.array inner) input = Valid l ->
  exists items, input = Some (JArr items) /\ parseAll inner items = Valid l.
Proof.
  unfold z.nonempty. intros H. apply andThen_Valid in H as (l' & Hl & H).
  destruct l'; [discriminate H|]. inversion H; subst.
  destruct input as [[| | | |items| |]|]; try discriminate Hl.
  exists items. auto.
Qed.

Lemma parseAll_dateRanges (items : list json) (ranges : list DateRange.t) :
  parseAll dateRangeSchema items = Valid ranges ->
  Forall2 (fun item range =>
             argument "startDate" item = Some (JStr (DateRange.startDate range))
             /\ argument "endDate" item = Some (JStr (DateRange.endDate range)))
          items ranges.
Proof.
  revert ranges. induction items as [|item items IH]; simpl; intros ranges H.
  - inversion H. constructor.
  - apply andThen_Valid in H as (range & Hrange & H).
    apply andThen_Valid in H as (others & Hothers & H).
    inversion H; subst. constructor; [|apply IH; exact Hothers].
    unfold dateRangeSchema, z.object in Hrange.
    destruct item; try discriminate Hrange.
    apply andThen_Valid in Hrange as (s & Hs & Hrange).
    apply andThen_Valid in Hrange as (e & He & Hrange).
    inversion Hrange; subst. simpl.
    destruct (getField "startDate" fields) as [[| | |s'| | |]|]; try discriminate Hs.
    destruct (getField "endDate" fields) as [[| | |e'| | |]|]; try discriminate He.
    inversion Hs. inversion He. auto.
Qed.

(** Reduces a rejection to the invalidity of the arguments for the schema. *)
Ltac show_invalid :=
  match goal with
  | |- match ?p with Valid _ => true | Invalid _ => false end = false =>
      let H := fresh "Hinvalid" in
      assert (H : exists issue, p = Invalid issue);
      [ unfold query_analytics_schema, get_realtime_data_schema,
          get_traffic_sources_schema, get_user_demographics_schema,
          get_page_performance_schema, get_conversion_data_schema,
          get_custom_report_schema, z.object
      | destruct H as (? & ->); reflexivity ]
  end.

(** Walks the fields of a schema up to the first one known to be invalid. *)
Ltac first_invalid :=
  repeat first [ solve [eexists; reflexivity] | apply andThen_Invalid; intros ? ].

Section Reports.

Variable env : string -> option string.
Variable defaultApplied : bool.
Variable backend : Backend.

(** [query_analytics] and [get_custom_report] hand the filters, the ordering
    and the paging of the arguments to [runReport] as they are: the three
    [z.any()] fields whatever JSON they hold, [limit] and [offset] as the
    supplied integers, and each as [undefined] when absent. *)
Theorem report_options_pass_through (name : string) (arguments : json) :
  In name ["query_analytics"; "get_custom_report"] ->
  accepts env defaultApplied name arguments = true ->
  exists request,
    callsOf env defaultApplied backend name arguments = [RunReport request]
    /\ RunReportRequest.dimensionFilter request = argument "dimensionFilter" arguments
    /\ RunReportRequest.metricFilter request = argument "metricFilter" arguments
    /\ RunReportRequest.orderBys request = argument "orderBys" arguments
    /\ RunReportRequest.limit request
       = match argument "limit" arguments with Some (JNum n) => Some n | _ => None end
    /\ RunReportRequest.offset request
       = match argument "offset" arguments with Some (JNum n) => Some n | _ => None end.
Proof.
  intros Hname Hacc.
  destruct (accepted_call env defaultApplied backend name arguments Hacc)
    as (tool & args & Hin & Htool & Hparse & -> & _).
  destruct Hname as [<-|[<-|[]]].
  all: each_tool Hin; try discriminate Htool.
  all: schema_inv Hparse; open_handler; rewrite run_single.
  all: eexists; split; [reflexivity|].
  all: cbn [RunReportRequest.dimensionFilter RunReportRequest.metricFilter
            RunReportRequest.orderBys RunReportRequest.limit RunReportRequest.offset
            ReportArgs.dimensionFilter ReportArgs.metricFilter ReportArgs.orderBys
            ReportArgs.limit ReportArgs.offset argument].
  all: repeat match goal with
         | H : z.any_optional _ = Valid _ |- _ => apply any_optional_Valid in H; subst
         | H : z.optional (z.number_int_positive _) _ = Valid _ |- _ =>
             apply optional_positive_Valid in H as [-> _]
         | H : z.optional (z.number_int_nonnegative _) _ = Valid _ |- _ =>
             apply optional_nonnegative_Valid in H as [-> _]
         end.
  all: auto.
Qed.

(** [query_analytics] and [get_custom_report] send the date ranges of the
    arguments, one per supplied range and in the supplied order, each with
    the [startDate] and [endDate] strings of its source. *)
Theorem date_ranges_pass_through (name : string) (arguments : json) :
  In name ["query_analytics"; "get_custom_report"] ->
  accepts env defaultApplied name arguments = true ->
  exists request items,
    callsOf env defaultApplied backend name arguments = [RunReport request]
    /\ argument "dateRanges" arguments = Some (JArr items)
    /\ Forall2 (fun item range =>
                  argument "startDate" item = Some (JStr (DateRange.startDate range))
                  /\ argument "endDate" item = Some (JStr (DateRange.endDate range)))
               items (RunReportRequest.dateRanges request).
Proof.
  intros Hname Hacc.
  destruct (accepted_call env defaultApplied backend name arguments Hacc)
    as (tool & args & Hin & Htool & Hparse & -> & _).
  destruct Hname as [<-|[<-|[]]].
  all: each_tool Hin; try discriminate Htool.
  all: schema_inv Hparse; open_handler; rewrite run_single.
  all: match goal with
       | H : z.nonempty (z.array dateRangeSchema) _ = Valid _ |- _ =>
           apply nonempty_array_Valid in H as (items & Hitems & Hranges)
       end.
  all: eexists; exists items; split; [reflexivity|].
  all: split; [exact Hitems|].
  all: apply parseAll_dateRanges; exact Hranges.
Qed.

(** Every report request that reaches the backend has a [limit] that is
    absent or positive and an [offset] that is absent or not negative. *)
Theorem paging_within_bounds (name : string) (arguments : json)
  (request : RunReportRequest.t) :
  In (RunReport request) (callsOf env defaultApplied backend name arguments) ->
  (forall n, RunReportRequest.limit request = Some n -> (0 < n)%Z)
  /\ (forall n, RunReportRequest.offset request = Some n -> (0 <= n)%Z).
Proof.
  intros Hcall.
  destruct (accepts env defaultApplied name arguments) eqn:Hacc.
  2: { rewrite (rejected_call env defaultApplied backend name arguments Hacc) in Hcall.
       destruct Hcall. }
  destruct (accepted_call env defaultApplied backend name arguments Hacc)
    as (tool & args & Hin & _ & Hparse & Hcalls & _).
  rewrite Hcalls in Hcall. clear Hcalls Hacc.
  each_tool Hin.
  all: schema_inv Hparse.
  all: revert Hcall; open_handler; rewrite run_single.
  all: intros [Hcall|[]]; inversion Hcall; subst; clear Hcall.
  all: cbn [RunReportRequest.limit RunReportRequest.offset
            ReportArgs.limit ReportArgs.offset].
  all: try (split; discriminate).
  all: repeat match goal with
         | H : z.optional (z.number_int_positive _) _ = Valid _ |- _ =>
             apply optional_positive_Valid in H as [_ H]
         | H : z.optional (z.number_int_nonnegative _) _ = Valid _ |- _ =>
             apply optional_nonnegative_Valid in H as [_ H]
         end.
  all: split; assumption.
Qed.

(** A [limit] that is zero or negative, or an [offset] that is negative,
    fails the schema of [query_analytics] and of [get_custom_report]: no
    backend call is made. *)
Theorem paging_out_of_bounds_rejected (name : string) (arguments : json) (n : Z) :
  In name ["query_analytics"; "get_custom_report"] ->
  (argument "limit" arguments = Some (JNum n) /\ (n <= 0)%Z)
  \/ (argument "offset" arguments = Some (JNum n) /\ (n < 0)%Z) ->
  accepts env defaultApplied name arguments = false
  /\ callsOf env defaultApplied backend name arguments = [].
Proof.
  intros Hname Hbad.
  assert (Hrejected : accepts env defaultApplied name arguments = false).
  { unfold accepts.
    destruct (findTool env defaultApplied name) as [tool|] eqn:Hfind; [|reflexivity].
    apply findTool_registered in Hfind as [Hin Htool].
    destruct Hname as [<-|[<-|[]]].
    all: each_tool Hin; try discriminate Htool.
    all: show_invalid.
    all: destruct Hbad as [[Hfield Hn]|[Hfield Hn]].
    all: apply argument_object in Hfield as (fields & -> & Hfield); rewrite Hfield.
    all: first [ rewrite (optional_positive_Invalid defaultApplied n Hn)
               | rewrite (optional_nonnegative_Invalid defaultApplied n Hn) ].
    all: first_invalid. }
  split; [exact Hrejected|].
  apply rejected_call. exact Hrejected.
Qed.

(** [query_analytics] and [get_custom_report] reject arguments without
    [metrics], without [dateRanges] or with an empty [dateRanges] list: no
    backend call is made. *)
Theorem required_lists_enforced (name : string) (arguments : json) :
  In name ["query_analytics"; "get_custom_report"] ->
  argument "metrics" arguments = None
  \/ argument "dateRanges" arguments = None
  \/ argument "dateRanges" arguments = Some (JArr []) ->
  accepts env defaultApplied name arguments = false
  /\ callsOf env defaultApplied backend name arguments = [].
Proof.
  intros Hname Hbad.
  assert (Hrejected : accepts env defaultApplied name arguments = false).
  { unfold accepts.
    destruct (findTool env defaultApplied name) as [tool|] eqn:Hfind; [|reflexivity].
    apply findTool_registered in Hfind as [Hin Htool].
    destruct Hname as [<-|[<-|[]]].
    all: each_tool Hin; try discriminate Htool.
    all: show_invalid.
    all: destruct arguments; try (eexists; reflexivity).
    all: simpl in Hbad; destruct Hbad as [Hfield|[Hfield|Hfield]]; rewrite Hfield.
    all: first_invalid. }
  split; [exact Hrejected|].
  apply rejected_call. exact Hrejected.
Qed.

(** [query_analytics] and [get_custom_report] called without [dimensions]
    send an empty dimension list. *)
Theorem absent_dimensions_are_empty (name : string) (arguments : json) :
  In name ["query_analytics"; "get_custom_report"] ->
  accepts env defaultApplied name arguments = true ->
  argument "dimensions" arguments = None ->
  exists call,
    callsOf env defaultApplied backend name arguments = [call]
    /\ dimensionsOf call = [].
Proof.
  intros Hname Hacc Hdims.
  destruct (accepted_call env defaultApplied backend name arguments Hacc)
    as (tool & args & Hin & Htool & Hparse & -> & _).
  destruct Hname as [<-|[<-|[]]].
  all: each_tool Hin; try discriminate Htool.
  all: schema_inv Hparse; open_handler; rewrite run_single.
  all: eexists; split; [reflexivity|].
  all: simpl in Hdims.
  all: repeat match goal with
         | H : _ (getField "dimensions" _) = Valid _ |- _ => rewrite Hdims in H
         | H : z.default_optional _ _ _ (getField "dimensions" _) = Valid _ |- _ =>
             rewrite Hdims in H
         end.
  all: repeat match goal with
         | H : z.default_optional _ _ _ None = Valid _ |- _ =>
             apply default_optional_absent in H as [->| ->]
         | H : z.optional _ None = Valid _ |- _ => inversion H; subst; clear H
         end.
  all: reflexivity.
Qed.

End Reports.

(** ** Presets, realtime defaults and the shape of the arguments *)

Lemma default_optional_string_Valid applied (d : string) (input : option json)
  (v : option string) :
  z.default_optional applied z.string d input = Valid v ->
  isOptionalString input = true
  /\ (forall s, input = Some (JStr s) -> v = Some s)
  /\ (input = None -> v = None \/ v = Some d).
Proof.
  destruct input as [[| | |s| | |]|]; simpl; intros H; try discriminate H.
  - inversion H; subst. split; [reflexivity|]. split; [|discriminate].
    intros s' Hs. inversion Hs. reflexivity.
  - inversion H; subst. split; [reflexivity|]. split; [discriminate|].
    intros _. destruct applied; auto.
Qed.

Lemma default_optional_supplied {A : Type} applied (schema : Schema A) (d : A)
  (value : json) :
  z.default_optional applied schema d (Some value) = z.optional schema (Some value).
Proof. reflexivity. Qed.

(** [get_custom_report] parses and handles arguments as [query_analytics]
    does. *)
Lemma custom_report_schema_agrees env defaultApplied (arguments : json) :
  match get_custom_report_schema defaultApplied (Some arguments),
        query_analytics_schema defaultApplied (Some arguments) with
  | Valid custom, Valid query =>
      get_custom_report_handler env custom = query_analytics_handler env query
  | Invalid _, Invalid _ => True
  | _, _ => False
  end.
Proof.
  unfold get_custom_report_schema, query_analytics_schema, z.object.
  destruct arguments; try exact I.
  destruct (z.optional z.string (getField "propertyId" fields)); [|exact I].
  cbn [andThen].
  destruct (z.nonempty (z.array dateRangeSchema) (getField "dateRanges" fields));
    cbn [andThen].
  - destruct (getField "dimensions" fields) as [supplied|].
    + rewrite default_optional_supplied.
      destruct (z.optional (z.array z.string) (Some supplied)); [|exact I].
      cbn [andThen].
      destruct (z.nonempty (z.array z.string) (getField "metrics" fields)); [|exact I].
      cbn [andThen z.any_optional].
      destruct (z.optional (z.number_int_positive defaultApplied) (getField "limit" fields)); [|exact I].
      cbn [andThen].
      destruct (z.optional (z.number_int_nonnegative defaultApplied) (getField "offset" fields)); [|exact I].
      reflexivity.
    + change (z.optional (z.array z.string) None) with (@Valid (option (list string)) None).
      change (z.default_optional defaultApplied (z.array z.string) [] None)
        with (Valid (if defaultApplied then Some (@nil string) else None)).
      cbn [andThen].
      destruct (z.nonempty (z.array z.string) (getField "metrics" fields)); [|exact I].
      cbn [andThen z.any_optional].
      destruct (z.optional (z.number_int_positive defaultApplied) (getField "limit" fields)); [|exact I].
      cbn [andThen].
      destruct (z.optional (z.number_int_nonnegative defaultApplied) (getField "offset" fields)); [|exact I].
      destruct defaultApplied; reflexivity.
  - destruct (z.default_optional defaultApplied (z.array z.string) []
                (getField "dimensions" fields)); [|exact I].
    cbn [andThen].
    destruct (z.nonempty (z.array z.string) (getField "metrics" fields)); exact I.
Qed.

Section Arguments.

Variable env : string -> option string.
Variable defaultApplied : bool.
Variable backend : Backend.

(** A fixed-preset tool always sends exactly one date range; its [startDate]
    and [endDate] are the supplied strings, the empty string included, and
    each falls back on its own to ["7daysAgo"] and ["today"] when absent. *)
Theorem preset_date_range (name : string) (arguments : json) :
  In name ["get_traffic_sources"; "get_user_demographics";
           "get_page_performance"; "get_conversion_data"] ->
  accepts env defaultApplied name arguments = true ->
  exists request range,
    callsOf env defaultApplied backend name arguments = [RunReport request]
    /\ RunReportRequest.dateRanges request = [range]
    /\ (forall s, argument "startDate" arguments = Some (JStr s) ->
        DateRange.startDate range = s)
    /\ (argument "startDate" arguments = None -> DateRange.startDate range = "7daysAgo")
    /\ (forall s, argument "endDate" arguments = Some (JStr s) ->
        DateRange.endDate range = s)
    /\ (argument "endDate" arguments = None -> DateRange.endDate range = "today").
Proof.
  intros Hname Hacc.
  destruct (accepted_call env defaultApplied backend name arguments Hacc)
    as (tool & args & Hin & Htool & Hparse & -> & _).
  destruct Hname as [<-|[<-|[<-|[<-|[]]]]].
  all: each_tool Hin; try discriminate Htool.
  all: schema_inv Hparse; open_handler; rewrite run_single.
  all: do 2 eexists; split; [reflexivity|]; split; [reflexivity|].
  all: cbn [DateRange.startDate DateRange.endDate PresetArgs.startDate
            PresetArgs.endDate argument].
  all: repeat match goal with
         | H : z.default_optional _ z.string _ _ = Valid _ |- _ =>
             apply default_optional_string_Valid in H as (_ & ? & ?)
         end.
  all: repeat split.
  all: try (intros s Hs;
            match goal with
            | H : forall s', getField _ _ = Some (JStr s') -> _ = Some s' |- _ =>
                rewrite (H s Hs); reflexivity
            end).
  all: intros Habsent;
       match goal with
       | H : getField ?key _ = None -> _ \/ _, Ha : getField ?key _ = None |- _ =>
           destruct (H Ha) as [->| ->]; reflexivity
       end.
Qed.

(** A fixed-preset tool sends its own dimension and metric lists and neither
    filter, limit, offset nor ordering, whatever else the arguments hold. *)
Theorem preset_request_is_fixed (name : string) (dimensions metrics : list string)
  (arguments : json) :
  In (name, (dimensions, metrics)) specPresetTable ->
  accepts env defaultApplied name arguments = true ->
  exists request,
    callsOf env defaultApplied backend name arguments = [RunReport request]
    /\ RunReportRequest.dimensions request = map wrapName dimensions
    /\ RunReportRequest.metrics request = map wrapName metrics
    /\ RunReportRequest.dimensionFilter request = None
    /\ RunReportRequest.metricFilter request = None
    /\ RunReportRequest.limit request = None
    /\ RunReportRequest.offset request = None
    /\ RunReportRequest.orderBys request = None.
Proof.
  intros Hrow Hacc.
  destruct (accepted_call env defaultApplied backend name arguments Hacc)
    as (tool & args & Hin & Htool & Hparse & -> & _).
  each_tool Hin.
  all: destruct Hrow as [Hrow|[Hrow|[Hrow|[Hrow|[]]]]]; try discriminate Hrow.
  all: inversion Hrow; subst; clear Hrow.
  all: open_handler; rewrite run_single.
  all: eexists; split; [reflexivity|].
  all: repeat split.
Qed.

(** The two defaults of [get_realtime_data] apply independently: absent
    [dimensions] become [country] whatever [metrics] holds, and absent
    [metrics] become [activeUsers] whatever [dimensions] holds. *)
Theorem realtime_defaults_independent (arguments : json) :
  accepts env defaultApplied "get_realtime_data" arguments = true ->
  exists request,
    callsOf env defaultApplied backend "get_realtime_data" arguments
    = [RunRealtimeReport request]
    /\ (argument "dimensions" arguments = None ->
        RunRealtimeReportRequest.dimensions request = [ {| Named.name := "country" |} ])
    /\ (argument "metrics" arguments = None ->
        RunRealtimeReportRequest.metrics request = [ {| Named.name := "activeUsers" |} ]).
Proof.
  intros Hacc.
  destruct (accepted_call env defaultApplied backend _ arguments Hacc)
    as (tool & args & Hin & Htool & Hparse & -> & _).
  each_tool Hin; try discriminate Htool.
  schema_inv Hparse. open_handler. rewrite run_single.
  eexists. split; [reflexivity|].
  cbn [RunRealtimeReportRequest.dimensions RunRealtimeReportRequest.metrics
       RealtimeArgs.dimensions RealtimeArgs.metrics argument].
  split; intros Habsent.
  - rewrite Habsent in Hv0.
    apply default_optional_absent in Hv0 as [->| ->]; reflexivity.
  - rewrite Habsent in Hv1.
    apply default_optional_absent in Hv1 as [->| ->]; reflexivity.
Qed.

(** When the backend fulfils the call with an empty tuple, or with a tuple
    whose first element is [undefined], the tool still answers with one
    ["text"] block, whose text is [undefined]. *)
Theorem undefined_result_has_undefined_text (name : string) (arguments : json) :
  accepts env defaultApplied name arguments = true ->
  (forall call, In call (callsOf env defaultApplied backend name arguments) ->
                exists tuple, backend call = Fulfilled tuple /\ first tuple = None) ->
  outcomeOf env defaultApplied backend name arguments
  = Fulfilled (ToolResult
      {| ToolOutput.content :=
           [ {| ContentBlock.type := "text"; ContentBlock.text := None |} ] |}).
Proof.
  intros Hacc Hbackend.
  destruct (accepted_call env defaultApplied backend name arguments Hacc)
    as (tool & args & Hin & _ & _ & Hcalls & Houtcome).
  destruct (handler_output env defaultApplied backend tool args Hin)
    as (call & Hcall & Hout).
  destruct (Hbackend call) as (tuple & Htuple & Hfirst).
  { rewrite Hcalls, Hcall. left. reflexivity. }
  rewrite Houtcome, Hout, Htuple. simpl. unfold toToolTextContent.
  rewrite Hfirst. reflexivity.
Qed.

(** [get_custom_report] behaves as [query_analytics]: the two accept the same
    arguments, make the same backend calls and settle alike once the
    arguments are accepted. *)
Theorem custom_report_is_query_analytics (arguments : json) :
  accepts env defaultApplied "get_custom_report" arguments
  = accepts env defaultApplied "query_analytics" arguments
  /\ callsOf env defaultApplied backend "get_custom_report" arguments
     = callsOf env defaultApplied backend "query_analytics" arguments
  /\ (accepts env defaultApplied "query_analytics" arguments = true ->
      outcomeOf env defaultApplied backend "get_custom_report" arguments
      = outcomeOf env defaultApplied backend "query_analytics" arguments).
Proof.
  pose proof (custom_report_schema_agrees env defaultApplied arguments) as Hagree.
  unfold accepts, callsOf, outcomeOf, callTool.
  change (findTool env defaultApplied "get_custom_report")
    with (Some (get_custom_report env defaultApplied)).
  change (findTool env defaultApplied "query_analytics")
    with (Some (query_analytics env defaultApplied)).
  cbv beta iota.
  unfold get_custom_report, query_analytics.
  cbn [Tool.inputSchema Tool.handler Tool.Args].
  destruct (get_custom_report_schema defaultApplied (Some arguments)) as [custom|];
    destruct (query_analytics_schema defaultApplied (Some arguments)) as [query|];
    try contradiction.
  - rewrite Hagree. auto.
  - repeat split. discriminate.
Qed.

(** A [propertyId] that is not a string fails the schema of every tool: no
    backend call is made. *)
Theorem non_string_property_rejected (name : string) (arguments value : json) :
  argument "propertyId" arguments = Some value ->
  (forall s, value <> JStr s) ->
  accepts env defaultApplied name arguments = false
  /\ callsOf env defaultApplied backend name arguments = [].
Proof.
  intros Hfield Hvalue.
  assert (Hrejected : accepts env defaultApplied name arguments = false).
  { unfold accepts.
    destruct (findTool env defaultApplied name) as [tool|] eqn:Hfind; [|reflexivity].
    apply findTool_registered in Hfind as [Hin _].
    apply argument_object in Hfield as (fields & -> & Hfield).
    each_tool Hin.
    all: show_invalid.
    all: rewrite Hfield, (optional_string_Invalid value Hvalue).
    all: eexists; reflexivity. }
  split; [exact Hrejected|].
  apply rejected_call. exact Hrejected.
Qed.

(** A fixed-preset tool accepts exactly the objects whose [propertyId],
    [startDate] and [endDate] are each absent or a string. *)
Theorem preset_accepts_optional_strings (name : string) (arguments : json) :
  In name ["get_traffic_sources"; "get_user_demographics";
           "get_page_performance"; "get_conversion_data"] ->
  accepts env defaultApplied name arguments
  = match arguments with
    | JObj fields =>
        isOptionalString (getField "propertyId" fields)
        && isOptionalString (getField "startDate" fields)
        && isOptionalString (getField "endDate" fields)
    | _ => false
    end.
Proof.
  intros Hname. unfold accepts.
  destruct Hname as [<-|[<-|[<-|[<-|[]]]]].
  1: change (findTool env defaultApplied "get_traffic_sources")
       with (Some (get_traffic_sources env defaultApplied)).
  2: change (findTool env defaultApplied "get_user_demographics")
       with (Some (get_user_demographics env defaultApplied)).
  3: change (findTool env defaultApplied "get_page_performance")
       with (Some (get_page_performance env defaultApplied)).
  4: change (findTool env defaultApplied "get_conversion_data")
       with (Some (get_conversion_data env defaultApplied)).
  all: cbv beta iota.
  all: unfold get_traffic_sources, get_user_demographics, get_page_performance,
         get_conversion_data; cbn [Tool.inputSchema].
  all: unfold get_traffic_sources_schema, get_user_demographics_schema,
         get_page_performance_schema, get_conversion_data_schema, z.object.
  all: destruct arguments; try reflexivity.
  all: destruct (getField "propertyId" fields) as [[]|];
       destruct (getField "startDate" fields) as [[]|];
       destruct (getField "endDate" fields) as [[]|]; reflexivity.
Qed.

(** A tool call reads the arguments at the declared keys only: two argument
    objects that agree on these keys are accepted alike, lead to the same
    backend calls and settle alike. *)
Theorem only_declared_keys_matter (name : string) (fields others : list (string * json)) :
  (forall key, In key declaredKeys -> getField key fields = getField key others) ->
  accepts env defaultApplied name (JObj fields)
  = accepts env defaultApplied name (JObj others)
  /\ callsOf env defaultApplied backend name (JObj fields)
     = callsOf env defaultApplied backend name (JObj others)
  /\ outcomeOf env defaultApplied backend name (JObj fields)
     = outcomeOf env defaultApplied backend name (JObj others).
Proof.
  intros Hagree.
  assert (Hparse : forall tool, In tool (registeredTools env defaultApplied) ->
             Tool.inputSchema tool (Some (JObj fields))
             = Tool.inputSchema tool (Some (JObj others))).
  { intros tool Hin. each_tool Hin.
    all: unfold query_analytics_schema, get_realtime_data_schema,
           get_traffic_sources_schema, get_user_demographics_schema,
           get_page_performance_schema, get_conversion_data_schema,
           get_custom_report_schema, z.object.
    all: repeat match goal with
           | |- context [getField ?key ?object] =>
               rewrite (Hagree key) by (unfold declaredKeys; simpl; tauto)
           end.
    all: reflexivity. }
  unfold accepts, callsOf, outcomeOf, callTool.
  destruct (findTool env defaultApplied name) as [tool|] eqn:Hfind; [|auto].
  apply findTool_registered in Hfind as [Hin _].
  rewrite (Hparse tool Hin). auto.
Qed.

End Arguments.

(** ** The arguments a schema accepts *)

Lemma isValid_andThen {A B : Type} (m : Parsed A) (f : A -> Parsed B) (b : bool) :
  (forall a, isValid (f a) = b) ->
  isValid (andThen m f) = isValid m && b.
Proof.
  intros Hf. destruct m as [a|issue]; simpl; [apply Hf|reflexivity].
Qed.

Lemma isValid_parseAll_strings (items : list json) :
  isValid (parseAll z.string items) = forallb isString items.
Proof.
  induction items as [|item items IH]; simpl; [reflexivity|].
  destruct item; simpl; try reflexivity.
  rewrite <- IH. destruct (parseAll z.string items); reflexivity.
Qed.

Lemma isValid_dateRange (item : json) :
  isValid (dateRangeSchema (Some item)) = isDateRange item.
Proof.
  destruct item; try reflexivity. simpl.
  destruct (getField "startDate" fields) as [[]|]; try reflexivity.
  destruct (getField "endDate" fields) as [[]|]; reflexivity.
Qed.

Lemma isValid_parseAll_dateRanges (items : list json) :
  isValid (parseAll dateRangeSchema items) = forallb isDateRange items.
Proof.
  induction items as [|item items IH]; [reflexivity|].
  cbn [parseAll forallb]. rewrite <- isValid_dateRange, <- IH.
  destruct (dateRangeSchema (Some item)); [|reflexivity].
  destruct (parseAll dateRangeSchema items); reflexivity.
Qed.

Lemma isValid_optional_string (input : option json) :
  isValid (z.optional z.string input) = isOptionalString input.
Proof.
  destruct input as [[]|]; reflexivity.
Qed.

Lemma isValid_optional_names (input : option json) :
  isValid (z.optional (z.array z.string) input)
  = match input with None => true | Some v => isNames v end.
Proof.
  destruct input as [[]|]; try reflexivity. simpl.
  rewrite <- isValid_parseAll_strings. destruct (parseAll z.string items); reflexivity.
Qed.

Lemma isValid_default_optional_names applied (d : list string) (input : option json) :
  isValid (z.default_optional applied (z.array z.string) d input)
  = match input with None => true | Some v => isNames v end.
Proof.
  destruct input as [[]|]; try reflexivity. simpl.
  rewrite <- isValid_parseAll_strings. destruct (parseAll z.string items); reflexivity.
Qed.

Lemma isValid_nonempty_names (input : option json) :
  isValid (z.nonempty (z.array z.string) input)
  = match input with
    | Some (JArr (item :: items)) => forallb isString (item :: items)
    | _ => false
    end.
Proof.
  destruct input as [[| | | |items| |]|]; try reflexivity.
  destruct items as [|item items]; [reflexivity|].
  cbv beta iota. rewrite <- isValid_parseAll_strings.
  unfold z.nonempty, z.array.
  destruct (parseAll z.string (item :: items)) as [[|]|] eqn:E; try reflexivity.
  apply parseAll_nil_inv in E. discriminate E.
Qed.

Lemma isValid_nonempty_dateRanges (input : option json) :
  isValid (z.nonempty (z.array dateRangeSchema) input)
  = match input with
    | Some (JArr (item :: items)) => forallb isDateRange (item :: items)
    | _ => false
    end.
Proof.
  destruct input as [[| | | |items| |]|]; try reflexivity.
  destruct items as [|item items]; [reflexivity|].
  cbv beta iota. rewrite <- isValid_parseAll_dateRanges.
  unfold z.nonempty, z.array.
  destruct (parseAll dateRangeSchema (item :: items)) as [[|]|] eqn:E; try reflexivity.
  apply parseAll_nil_inv in E. discriminate E.
Qed.

Lemma isValid_int (safe : bool) (n : Z) :
  isValid (z.int safe n) = isInt safe n.
Proof.
  unfold z.int, isInt, isSafeInteger. destruct safe; [|reflexivity].
  destruct (Z.ltb_spec n (- MAX_SAFE_INTEGER)), (Z.leb_spec (- MAX_SAFE_INTEGER) n);
    try lia; [reflexivity|].
  destruct (Z.ltb_spec MAX_SAFE_INTEGER n), (Z.leb_spec n MAX_SAFE_INTEGER);
    try lia; reflexivity.
Qed.

Lemma isValid_optional_positive safe (input : option json) :
  isValid (z.optional (z.number_int_positive safe) input)
  = match input with
    | None => true
    | Some (JNum n) => isInt safe n && (0 <? n)%Z
    | Some _ => false
    end.
Proof.
  destruct input as [[| |n| | | |]|]; try reflexivity.
  simpl. rewrite <- isValid_int.
  destruct (z.int safe n) as [m|] eqn:E; [|reflexivity].
  apply int_Valid in E. subst m. simpl. destruct (0 <? n)%Z; reflexivity.
Qed.

Lemma isValid_optional_nonnegative safe (input : option json) :
  isValid (z.optional (z.number_int_nonnegative safe) input)
  = match input with
    | None => true
    | Some (JNum n) => isInt safe n && (0 <=? n)%Z
    | Some _ => false
    end.
Proof.
  destruct input as [[| |n| | | |]|]; try reflexivity.
  simpl. rewrite <- isValid_int.
  destruct (z.int safe n) as [m|] eqn:E; [|reflexivity].
  apply int_Valid in E. subst m. simpl. destruct (0 <=? n)%Z; reflexivity.
Qed.

Lemma accepts_isValid env defaultApplied (tool : Tool.t) (arguments : json) :
  findTool env defaultApplied (Tool.name tool) = Some tool ->
  accepts env defaultApplied (Tool.name tool) arguments
  = isValid (Tool.inputSchema tool (Some arguments)).
Proof.
  unfold accepts. intros ->. reflexivity.
Qed.

Section Acceptance.

Variable env : string -> option string.
Variable defaultApplied : bool.

(** [query_analytics] and [get_custom_report] accept exactly the arguments
    of the declared shape: nothing well formed is turned away and nothing
    ill formed gets through.  In particular a [limit] or [offset] that is
    not an integer is refused, and so is, under zod 4, one that is not a
    safe integer. *)
Theorem report_accepts_declared_shape (name : string) (arguments : json) :
  In name ["query_analytics"; "get_custom_report"] ->
  accepts env defaultApplied name arguments
  = validReportArguments defaultApplied arguments.
Proof.
  intros [<-|[<-|[]]].
  - rewrite (accepts_isValid env defaultApplied (query_analytics env defaultApplied)) by reflexivity.
    cbn [Tool.inputSchema query_analytics].
    unfold query_analytics_schema, z.object, validReportArguments.
    destruct arguments; try reflexivity.
    erewrite isValid_andThen.
    2: { intros ?. erewrite isValid_andThen.
         2: { intros ?. erewrite isValid_andThen.
              2: { intros ?. erewrite isValid_andThen.
                   2: { intros ?. cbn [z.any_optional andThen].
                        erewrite isValid_andThen.
                        2: { intros ?. erewrite isValid_andThen.
                             2: { intros ?. cbn [z.any_optional andThen isValid].
                                  reflexivity. }
                             reflexivity. }
                        reflexivity. }
                   reflexivity. }
              reflexivity. }
         reflexivity. }
    rewrite isValid_optional_string, isValid_nonempty_dateRanges,
      isValid_optional_names, isValid_nonempty_names,
      isValid_optional_positive, isValid_optional_nonnegative.
    rewrite Bool.andb_true_r, !Bool.andb_assoc. reflexivity.
  - rewrite (accepts_isValid env defaultApplied (get_custom_report env defaultApplied))
      by reflexivity.
    cbn [Tool.inputSchema get_custom_report].
    unfold get_custom_report_schema, z.object, validReportArguments.
    destruct arguments; try reflexivity.
    erewrite isValid_andThen.
    2: { intros ?. erewrite isValid_andThen.
         2: { intros ?. erewrite isValid_andThen.
              2: { intros ?. erewrite isValid_andThen.
                   2: { intros ?. cbn [z.any_optional andThen].
                        erewrite isValid_andThen.
                        2: { intros ?. erewrite isValid_andThen.
                             2: { intros ?. cbn [z.any_optional andThen isValid].
                                  reflexivity. }
                             reflexivity. }
                        reflexivity. }
                   reflexivity. }
              reflexivity. }
         reflexivity. }
    rewrite isValid_optional_string, isValid_nonempty_dateRanges,
      isValid_default_optional_names, isValid_nonempty_names,
      isValid_optional_positive, isValid_optional_nonnegative.
    rewrite Bool.andb_true_r, !Bool.andb_assoc.
    destruct (isOptionalString (getField "propertyId" fields)); [|reflexivity].
    cbn [andb].
    destruct (match getField "dateRanges" fields with
              | Some (JArr (item :: items)) => forallb isDateRange (item :: items)
              | _ => false
              end);
      destruct (match getField "dimensions" fields with
                | Some v => isNames v
                | None => true
                end);
      destruct (match getField "metrics" fields with
                | Some (JArr (item :: items)) => forallb isString (item :: items)
                | _ => false
                end); reflexivity.
Qed.

(** [get_realtime_data] accepts exactly the objects whose [propertyId] is
    absent or a string and whose [dimensions] and [metrics] are each absent
    or an array of strings, the empty array included. *)
Theorem realtime_accepts_declared_shape (arguments : json) :
  accepts env defaultApplied "get_realtime_data" arguments
  = validRealtimeArguments arguments.
Proof.
  rewrite (accepts_isValid env defaultApplied (get_realtime_data env defaultApplied))
    by reflexivity.
  cbn [Tool.inputSchema get_realtime_data].
  unfold get_realtime_data_schema, z.object, validRealtimeArguments.
  destruct arguments; try reflexivity.
  erewrite isValid_andThen.
  2: { intros ?. erewrite isValid_andThen.
       2: { intros ?. erewrite isValid_andThen.
            2: { intros ?. cbn [isValid]. reflexivity. }
            reflexivity. }
       reflexivity. }
  rewrite isValid_optional_string, !isValid_default_optional_names.
  rewrite Bool.andb_true_r, !Bool.andb_assoc. reflexivity.
Qed.

End Acceptance.

(** * The further properties on the sample inputs *)

Lemma handler_calls_backend_once_witness :
  exists call,
    fst (run failingBackend
           (Tool.handler (get_traffic_sources envConfigured false) samplePresetArgs))
    = [call]
    /\ (forall reason, failingBackend call = Rejected reason ->
        snd (run failingBackend
               (Tool.handler (get_traffic_sources envConfigured false) samplePresetArgs))
        = Rejected reason)
    /\ (forall tuple, failingBackend call = Fulfilled tuple ->
        snd (run failingBackend
               (Tool.handler (get_traffic_sources envConfigured false) samplePresetArgs))
        = Fulfilled (toToolTextContent (first tuple))).
Proof.
  apply (handler_calls_backend_once envConfigured false failingBackend
           (get_traffic_sources envConfigured false) samplePresetArgs).
  right; right; left; reflexivity.
Defined.

Lemma backend_operation_by_tool_witness :
  exists call,
    callsOf envConfigured false sampleBackend "get_realtime_data" (JObj []) = [call]
    /\ ("get_realtime_data" = "get_realtime_data" ->
        exists request, call = RunRealtimeReport request)
    /\ ("get_realtime_data" <> "get_realtime_data" ->
        exists request, call = RunReport request).
Proof.
  apply (backend_operation_by_tool envConfigured false sampleBackend
           "get_realtime_data" (JObj [])).
  reflexivity.
Defined.

Lemma property_is_undefined_or_prefixed_witness :
  In sampleReportCall
     (callsOf envUnset false sampleBackend "get_custom_report" sampleReport)
  /\ (propertyOf sampleReportCall = None
      \/ exists id,
           id <> ""
           /\ propertyOf sampleReportCall = Some ("properties/" ++ id)
           /\ (overrideOf sampleReport = Some id
               \/ envUnset "GA4_PROPERTY_ID" = Some id
               \/ envUnset "GA_PROPERTY_ID" = Some id)).
Proof.
  split; [left; reflexivity|].
  apply (property_is_undefined_or_prefixed envUnset false sampleBackend
           "get_custom_report" sampleReport sampleReportCall).
  left; reflexivity.
Defined.

Lemma default_property_precedence_witness :
  exists call,
    callsOf envFallback false sampleBackend "get_conversion_data" emptyOverride = [call]
    /\ (forall primary, envFallback "GA4_PROPERTY_ID" = Some primary -> primary <> "" ->
        propertyOf call = Some ("properties/" ++ primary))
    /\ (truthy (envFallback "GA4_PROPERTY_ID") = false ->
        forall fallback, envFallback "GA_PROPERTY_ID" = Some fallback -> fallback <> "" ->
        propertyOf call = Some ("properties/" ++ fallback))
    /\ (truthy (envFallback "GA4_PROPERTY_ID") = false ->
        truthy (envFallback "GA_PROPERTY_ID") = false ->
        propertyOf call = None).
Proof.
  apply (default_property_precedence envFallback false sampleBackend
           "get_conversion_data" emptyOverride); reflexivity.
Defined.

Lemma report_options_pass_through_witness :
  exists request,
    callsOf envConfigured false sampleBackend "query_analytics" sampleFiltered
    = [RunReport request]
    /\ RunReportRequest.dimensionFilter request = argument "dimensionFilter" sampleFiltered
    /\ RunReportRequest.metricFilter request = argument "metricFilter" sampleFiltered
    /\ RunReportRequest.orderBys request = argument "orderBys" sampleFiltered
    /\ RunReportRequest.limit request
       = match argument "limit" sampleFiltered with Some (JNum n) => Some n | _ => None end
    /\ RunReportRequest.offset request
       = match argument "offset" sampleFiltered with Some (JNum n) => Some n | _ => None end.
Proof.
  apply (report_options_pass_through envConfigured false sampleBackend
           "query_analytics" sampleFiltered); [left; reflexivity|reflexivity].
Defined.

Lemma date_ranges_pass_through_witness :
  exists request items,
    callsOf envConfigured true sampleBackend "get_custom_report" sampleReport
    = [RunReport request]
    /\ argument "dateRanges" sampleReport = Some (JArr items)
    /\ Forall2 (fun item range =>
                  argument "startDate" item = Some (JStr (DateRange.startDate range))
                  /\ argument "endDate" item = Some (JStr (DateRange.endDate range)))
               items (RunReportRequest.dateRanges request).
Proof.
  apply (date_ranges_pass_through envConfigured true sampleBackend
           "get_custom_report" sampleReport); [right; left; reflexivity|reflexivity].
Defined.

Lemma paging_within_bounds_witness :
  In (RunReport sampleFilteredRequest)
     (callsOf envConfigured false sampleBackend "query_analytics" sampleFiltered)
  /\ RunReportRequest.limit sampleFilteredRequest = Some 25%Z
  /\ RunReportRequest.offset sampleFilteredRequest = Some 0%Z
  /\ (forall n, RunReportRequest.limit sampleFilteredRequest = Some n -> (0 < n)%Z)
  /\ (forall n, RunReportRequest.offset sampleFilteredRequest = Some n -> (0 <= n)%Z).
Proof.
  split; [left; reflexivity|]. split; [reflexivity|]. split; [reflexivity|].
  exact (paging_within_bounds envConfigured false sampleBackend "query_analytics"
           sampleFiltered sampleFilteredRequest (or_introl eq_refl)).
Defined.

Lemma paging_out_of_bounds_rejected_witness :
  accepts envConfigured false "query_analytics"
    (JObj [ ("dateRanges", sampleDateRanges); ("metrics", JArr [JStr "sessions"]);
            ("limit", JNum 0) ]) = false
  /\ callsOf envConfigured false sampleBackend "query_analytics"
       (JObj [ ("dateRanges", sampleDateRanges); ("metrics", JArr [JStr "sessions"]);
               ("limit", JNum 0) ]) = [].
Proof.
  apply (paging_out_of_bounds_rejected envConfigured false sampleBackend "query_analytics"
           (JObj [ ("dateRanges", sampleDateRanges); ("metrics", JArr [JStr "sessions"]);
                   ("limit", JNum 0) ]) 0%Z);
    [left; reflexivity|left; split; [reflexivity|lia]].
Defined.

Lemma required_lists_enforced_witness :
  accepts envConfigured false "get_custom_report"
    (JObj [ ("metrics", JArr [JStr "sessions"]); ("dateRanges", JArr []) ]) = false
  /\ callsOf envConfigured false sampleBackend "get_custom_report"
       (JObj [ ("metrics", JArr [JStr "sessions"]); ("dateRanges", JArr []) ]) = [].
Proof.
  apply (required_lists_enforced envConfigured false sampleBackend "get_custom_report"
           (JObj [ ("metrics", JArr [JStr "sessions"]); ("dateRanges", JArr []) ]));
    [right; left; reflexivity|right; right; reflexivity].
Defined.

Lemma absent_dimensions_are_empty_witness :
  exists call,
    callsOf envConfigured true sampleBackend "get_custom_report" sampleReport = [call]
    /\ dimensionsOf call = [].
Proof.
  apply (absent_dimensions_are_empty envConfigured true sampleBackend
           "get_custom_report" sampleReport);
    [right; left; reflexivity|reflexivity|reflexivity].
Defined.

Lemma preset_date_range_witness :
  exists request range,
    callsOf envConfigured false sampleBackend "get_user_demographics" sampleWindow
    = [RunReport request]
    /\ RunReportRequest.dateRanges request = [range]
    /\ (forall s, argument "startDate" sampleWindow = Some (JStr s) ->
        DateRange.startDate range = s)
    /\ (argument "startDate" sampleWindow = None -> DateRange.startDate range = "7daysAgo")
    /\ (forall s, argument "endDate" sampleWindow = Some (JStr s) ->
        DateRange.endDate range = s)
    /\ (argument "endDate" sampleWindow = None -> DateRange.endDate range = "today").
Proof.
  apply (preset_date_range envConfigured false sampleBackend
           "get_user_demographics" sampleWindow);
    [right; left; reflexivity|reflexivity].
Defined.

Lemma preset_request_is_fixed_witness :
  exists request,
    callsOf envConfigured false sampleBackend "get_traffic_sources" sampleExtraKeys
    = [RunReport request]
    /\ RunReportRequest.dimensions request = map wrapName ["source"; "medium"]
    /\ RunReportRequest.metrics request = map wrapName ["sessions"]
    /\ RunReportRequest.dimensionFilter request = None
    /\ RunReportRequest.metricFilter request = None
    /\ RunReportRequest.limit request = None
    /\ RunReportRequest.offset request = None
    /\ RunReportRequest.orderBys request = None.
Proof.
  apply (preset_request_is_fixed envConfigured false sampleBackend "get_traffic_sources"
           ["source"; "medium"] ["sessions"] sampleExtraKeys);
    [left; reflexivity|reflexivity].
Defined.

Lemma realtime_defaults_independent_witness :
  exists request,
    callsOf envConfigured false sampleBackend "get_realtime_data"
      (JObj [ ("dimensions", JArr [JStr "city"]) ])
    = [RunRealtimeReport request]
    /\ (argument "dimensions" (JObj [ ("dimensions", JArr [JStr "city"]) ]) = None ->
        RunRealtimeReportRequest.dimensions request = [ {| Named.name := "country" |} ])
    /\ (argument "metrics" (JObj [ ("dimensions", JArr [JStr "city"]) ]) = None ->
        RunRealtimeReportRequest.metrics request = [ {| Named.name := "activeUsers" |} ]).
Proof.
  apply (realtime_defaults_independent envConfigured false sampleBackend
           (JObj [ ("dimensions", JArr [JStr "city"]) ])).
  reflexivity.
Defined.

Lemma undefined_result_has_undefined_text_witness :
  outcomeOf envConfigured false emptyBackend "get_page_performance" (JObj [])
  = Fulfilled (ToolResult
      {| ToolOutput.content :=
           [ {| ContentBlock.type := "text"; ContentBlock.text := None |} ] |}).
Proof.
  apply (undefined_result_has_undefined_text envConfigured false emptyBackend
           "get_page_performance" (JObj [])); [reflexivity|].
  intros call _. exists []. split; reflexivity.
Defined.

Lemma custom_report_is_query_analytics_witness :
  accepts envConfigured true "get_custom_report" sampleQuery
  = accepts envConfigured true "query_analytics" sampleQuery
  /\ callsOf envConfigured true sampleBackend "get_custom_report" sampleQuery
     = callsOf envConfigured true sampleBackend "query_analytics" sampleQuery
  /\ (accepts envConfigured true "query_analytics" sampleQuery = true ->
      outcomeOf envConfigured true sampleBackend "get_custom_report" sampleQuery
      = outcomeOf envConfigured true sampleBackend "query_analytics" sampleQuery).
Proof.
  exact (custom_report_is_query_analytics envConfigured true sampleBackend sampleQuery).
Defined.

Lemma non_string_property_rejected_witness :
  accepts envConfigured false "get_realtime_data" (JObj [ ("propertyId", JNum 123456) ])
  = false
  /\ callsOf envConfigured false sampleBackend "get_realtime_data"
       (JObj [ ("propertyId", JNum 123456) ]) = [].
Proof.
  apply (non_string_property_rejected envConfigured false sampleBackend
           "get_realtime_data" (JObj [ ("propertyId", JNum 123456) ]) (JNum 123456));
    [reflexivity|discriminate].
Defined.

Lemma preset_accepts_optional_strings_witness :
  accepts envConfigured false "get_conversion_data" sampleWindow
  = match sampleWindow with
    | JObj fields =>
        isOptionalString (getField "propertyId" fields)
        && isOptionalString (getField "startDate" fields)
        && isOptionalString (getField "endDate" fields)
    | _ => false
    end.
Proof.
  apply (preset_accepts_optional_strings envConfigured false
           "get_conversion_data" sampleWindow).
  right; right; right; left; reflexivity.
Defined.

Lemma only_declared_keys_matter_witness :
  accepts envConfigured false "get_traffic_sources"
    (JObj [ ("verbose", JBool true); ("startDate", JStr "30daysAgo") ])
  = accepts envConfigured false "get_traffic_sources"
      (JObj [ ("startDate", JStr "30daysAgo") ])
  /\ callsOf envConfigured false sampleBackend "get_traffic_sources"
       (JObj [ ("verbose", JBool true); ("startDate", JStr "30daysAgo") ])
     = callsOf envConfigured false sampleBackend "get_traffic_sources"
         (JObj [ ("startDate", JStr "30daysAgo") ])
  /\ outcomeOf envConfigured false sampleBackend "get_traffic_sources"
       (JObj [ ("verbose", JBool true); ("startDate", JStr "30daysAgo") ])
     = outcomeOf envConfigured false sampleBackend "get_traffic_sources"
         (JObj [ ("startDate", JStr "30daysAgo") ]).
Proof.
  apply (only_declared_keys_matter envConfigured false sampleBackend "get_traffic_sources"
           [ ("verbose", JBool true); ("startDate", JStr "30daysAgo") ]
           [ ("startDate", JStr "30daysAgo") ]).
  intros key Hkey. unfold declaredKeys in Hkey. simpl in Hkey.
  repeat (destruct Hkey as [<-|Hkey]; [reflexivity|]). destruct Hkey.
Defined.

Lemma report_accepts_declared_shape_witness :
  accepts envConfigured true "query_analytics" sampleFiltered = true
  /\ accepts envConfigured true "query_analytics" sampleFractionalLimit = false
  /\ accepts envConfigured false "get_custom_report" sampleFractionalLimit = false
  /\ accepts envConfigured true "get_custom_report" sampleUnsafeLimit = false
  /\ accepts envConfigured false "get_custom_report" sampleUnsafeLimit = true.
Proof.
  split; [|split; [|split; [|split]]].
  - rewrite (report_accepts_declared_shape envConfigured true "query_analytics"
               sampleFiltered (or_introl eq_refl)).
    reflexivity.
  - rewrite (report_accepts_declared_shape envConfigured true "query_analytics"
               sampleFractionalLimit (or_introl eq_refl)).
    reflexivity.
  - rewrite (report_accepts_declared_shape envConfigured false "get_custom_report"
               sampleFractionalLimit (or_intror (or_introl eq_refl))).
    reflexivity.
  - rewrite (report_accepts_declared_shape envConfigured true "get_custom_report"
               sampleUnsafeLimit (or_intror (or_introl eq_refl))).
    reflexivity.
  - rewrite (report_accepts_declared_shape envConfigured false "get_custom_report"
               sampleUnsafeLimit (or_intror (or_introl eq_refl))).
    reflexivity.
Defined.

Lemma realtime_accepts_declared_shape_witness :
  accepts envConfigured true "get_realtime_data" emptyMetrics
  = validRealtimeArguments emptyMetrics.
Proof.
  exact (realtime_accepts_declared_shape envConfigured true emptyMetrics).
Defined.
